(** * safetensor-info: a shallow embedding of [safetensor_info.py]

    The tool is a thin reader on top of the [safetensors] library: it opens
    a file through [safe_open], walks the keys the library enumerates and
    records, per tensor, what the framework tensor object reports.  The
    library is not part of the repository, so its answers are inputs of the
    model ([Env], [Handle], [Tensor]); everything the script itself does
    (the fallback over four frameworks, the mutation of the [info] dict,
    the aggregation, the byte formatter) is translated from the source. *)

From Stdlib Require Import ZArith List String Ascii Lia Bool DecimalString.
Import ListNotations.

Open Scope string_scope.
Open Scope Z_scope.

(** ** Python values used by the script *)

Module Py.

(** An exception: its class and [str(e)].  [Exn] is an instance of a
    subclass of [Exception], which [except Exception] catches; [BaseExn]
    is an instance of a class outside [Exception] ([KeyboardInterrupt],
    [SystemExit], the panic of an extension module), which it does not
    catch. *)
Inductive exn : Type :=
| Exn (class msg : string)
| BaseExn (class msg : string).

Definition exn_class (e : exn) : string :=
  match e with
  | Exn class _ => class
  | BaseExn class _ => class
  end.

Definition exn_msg (e : exn) : string :=
  match e with
  | Exn _ msg => msg
  | BaseExn _ msg => msg
  end.

(** [isinstance(e, Exception)] *)
Definition is_Exception (e : exn) : bool :=
  match e with
  | Exn _ _ => true
  | BaseExn _ _ => false
  end.

(** The outcome of evaluating an expression that may raise. *)
Inductive result (A : Type) : Type :=
| Ok (a : A)
| Raise (e : exn).
Arguments Ok {A} a.
Arguments Raise {A} e.

Definition bind {A B : Type} (r : result A) (k : A -> result B) : result B :=
  match r with
  | Ok a => k a
  | Raise e => Raise e
  end.

(** [str(n)] for an [int]. *)
Definition str_int (n : Z) : string := NilZero.string_of_int (Z.to_int n).

(** [str(x)] for [x] that is [None] or an exception, as interpolated by
    the f-string of the final [RuntimeError]. *)
Definition str_last_error (e : option exn) : string :=
  match e with
  | None => "None"
  | Some e => exn_msg e
  end.

(** A [dict] keeps insertion order; assigning to a key that is already
    present replaces the value and keeps the key's position. *)
Definition dict (V : Type) : Type := list (string * V).

Fixpoint dict_set {V : Type} (k : string) (v : V) (d : dict V) : dict V :=
  match d with
  | [] => [(k, v)]
  | (k', v') :: d' =>
      if String.eqb k k' then (k, v) :: d' else (k', v') :: dict_set k v d'
  end.

Fixpoint dict_get {V : Type} (k : string) (d : dict V) : option V :=
  match d with
  | [] => None
  | (k', v') :: d' => if String.eqb k k' then Some v' else dict_get k d'
  end.

Definition dict_keys {V : Type} (d : dict V) : list string := map fst d.

Definition dict_len {V : Type} (d : dict V) : Z := Z.of_nat (List.length d).

End Py.

Import Py.

Notation "x <- c1 ;; c2" := (bind c1 (fun x => c2))
  (at level 61, c1 at next level, right associativity).

(** ** Floats, as far as [format_bytes] needs them

    Every float that [format_bytes] computes is an integer divided by a
    power of two, so a binary64 value is kept exactly as [mant / 2^scale].
    The only inexact step is the conversion of an [int] of more than 53
    bits, which rounds to nearest, ties to even, and raises
    [OverflowError] from 2^1024 on.  Dividing by [1024.0] only lowers the
    exponent; it is exact here because it is applied to values of
    magnitude at least 1024. *)

Module PyFloat.

Record float : Type := Float { mant : Z; scale : nat }.

Definition bit_length (a : Z) : Z :=
  if a =? 0 then 0 else Z.log2 a + 1.

(** [num / den] rounded to the nearest integer, ties to even
    ([0 <= num], [0 < den]). *)
Definition round_half_even (num den : Z) : Z :=
  let q := num / den in
  let r := num mod den in
  if 2 * r <? den then q
  else if den <? 2 * r then q + 1
  else if Z.even q then q else q + 1.

(** The magnitude [a] rounded to 53 significant bits. *)
Definition round53 (a : Z) : Z :=
  let sh := Z.max 0 (bit_length a - 53) in
  round_half_even a (2 ^ sh) * 2 ^ sh.

Definition OverflowError : exn :=
  Exn "OverflowError" "int too large to convert to float".

(** [float(n)], the conversion applied by [n / 1024.0] and by the
    [.1f] format to an [int]. *)
Definition of_int (n : Z) : result float :=
  let m := round53 (Z.abs n) in
  if 2 ^ 1024 <=? m then Raise OverflowError
  else Ok (Float (Z.sgn n * m) 0).

(** [x / 1024.0] *)
Definition div_1024 (x : float) : float :=
  Float (mant x) (scale x + 10).

(** [x < 1024.0] *)
Definition lt_1024 (x : float) : bool :=
  mant x <? 1024 * 2 ^ Z.of_nat (scale x).

(** [f"{x:.1f}"]: the decimal expansion of [x] correctly rounded to one
    fractional digit (ties to even). *)
Definition format_1f (x : float) : string :=
  let t := round_half_even (10 * Z.abs (mant x)) (2 ^ Z.of_nat (scale x)) in
  (if mant x <? 0 then "-" else "")
    ++ str_int (t / 10) ++ "." ++ str_int (t mod 10).

End PyFloat.

Import PyFloat.

(** ** [format_bytes] *)

(** [bytes_count] starts as the [int] argument and becomes a [float] at the
    first division. *)
Inductive number : Type :=
| PInt (n : Z)
| PFloat (x : float).

(** [bytes_count < 1024.0]; an [int] is compared with a float exactly. *)
Definition number_lt_1024 (b : number) : bool :=
  match b with
  | PInt n => n <? 1024
  | PFloat x => lt_1024 x
  end.

(** [bytes_count /= 1024.0] *)
Definition number_div_1024 (b : number) : result number :=
  match b with
  | PInt n => x <- of_int n ;; Ok (PFloat (div_1024 x))
  | PFloat x => Ok (PFloat (div_1024 x))
  end.

(** [f"{bytes_count:.1f}"]; an [int] is converted to a float first. *)
Definition number_format_1f (b : number) : result string :=
  match b with
  | PInt n => x <- of_int n ;; Ok (format_1f x)
  | PFloat x => Ok (format_1f x)
  end.

Definition units : list string := ["B"; "KB"; "MB"; "GB"; "TB"].

(** The [for unit in ...] loop of [format_bytes], with the statement after
    the loop as the case of the exhausted list. *)
Fixpoint format_bytes_loop (us : list string) (bytes_count : number)
  : result string :=
  match us with
  | [] => s <- number_format_1f bytes_count ;; Ok (s ++ " PB")
  | unit :: rest =>
      if number_lt_1024 bytes_count then
        s <- number_format_1f bytes_count ;; Ok (s ++ " " ++ unit)
      else
        b <- number_div_1024 bytes_count ;; format_bytes_loop rest b
  end.

Definition format_bytes (bytes_count : Z) : result string :=
  format_bytes_loop units (PInt bytes_count).

(** ** What the [safetensors] library answers

    [safe_open], the handle it yields and the framework tensors are outside
    the repository.  Each call the script makes is a field here; a call
    that raises answers [Raise]. *)

Module Lib.

(** A framework tensor, seen through the four attributes the script
    reads: [tensor.shape], [tensor.dtype] (already passed through
    [str]), [tensor.numel()] and [tensor.nbytes]. *)
Record Tensor : Type := {
  shape : result (list Z);
  dtype : result string;
  numel : result Z;
  nbytes : result Z
}.

(** The object bound by [with safe_open(...) as f]. *)
Record Handle : Type := {
  metadata : result (option (dict string));
  keys : result (list string);
  get_tensor : string -> result Tensor
}.

(** One file as the script sees it: [str(file_path)],
    [file_path.stat().st_size] and [safe_open(file_path, framework=fw)]
    for each framework name. *)
Record Env : Type := {
  path : string;
  st_size : result Z;
  safe_open : string -> result Handle
}.

End Lib.

(** ** The report built by [get_safetensor_info] *)

(** The value stored under each tensor name. *)
Record TensorInfo : Type := {
  shape : list Z;
  dtype : string;
  parameters : Z;
  size_bytes : Z
}.

(** The [info] dict. *)
Record Info : Type := {
  file_path : string;
  file_size : Z;
  metadata : option (dict string);
  tensors : dict TensorInfo;
  tensor_count : Z;
  total_parameters : Z
}.

Definition set_metadata (info : Info) (m : dict string) : Info :=
  {| file_path := file_path info;
     file_size := file_size info;
     metadata := Some m;
     tensors := tensors info;
     tensor_count := tensor_count info;
     total_parameters := total_parameters info |}.

(** The three assignments that end the [with] block. *)
Definition set_tensors (info : Info) (tensor_info : dict TensorInfo)
  (total_params : Z) : Info :=
  {| file_path := file_path info;
     file_size := file_size info;
     metadata := metadata info;
     tensors := tensor_info;
     tensor_count := dict_len tensor_info;
     total_parameters := total_params |}.

(** Truth value of what [f.metadata()] returns: [None] and the empty dict
    are both false. *)
Definition truthy (m : option (dict string)) : bool :=
  match m with
  | None => false
  | Some [] => false
  | Some (_ :: _) => true
  end.

(** [if metadata: info['metadata'] = dict(metadata)]; copying a dict
    keeps its items and their order. *)
Definition assign_metadata (info : Info) (m : option (dict string)) : Info :=
  match m with
  | Some d => if truthy m then set_metadata info d else info
  | None => info
  end.

Definition frameworks_to_try : list string := ["pt"; "tf"; "flax"; "numpy"].

(** The body of [for key in f.keys()], on the pair
    [(tensor_info, total_params)]; the reads happen in the order of the
    source, [tensor.nbytes] last, inside the dict display. *)
Definition tensor_step (f : Lib.Handle) (acc : dict TensorInfo * Z)
  (key : string) : result (dict TensorInfo * Z) :=
  tensor <- Lib.get_tensor f key ;;
  shape <- Lib.shape tensor ;;
  dtype <- Lib.dtype tensor ;;
  numel <- Lib.numel tensor ;;
  nbytes <- Lib.nbytes tensor ;;
  Ok (dict_set key
        {| shape := shape; dtype := dtype;
           parameters := numel; size_bytes := nbytes |} (fst acc),
      snd acc + numel).

Fixpoint tensor_loop (f : Lib.Handle) (ks : list string)
  (acc : dict TensorInfo * Z) : result (dict TensorInfo * Z) :=
  match ks with
  | [] => Ok acc
  | key :: rest => acc' <- tensor_step f acc key ;; tensor_loop f rest acc'
  end.

(** The part of the [with] block after the metadata: enumerate the keys
    and run the loop from an empty [tensor_info] and a zero count. *)
Definition read_tensors (f : Lib.Handle) : result (dict TensorInfo * Z) :=
  ks <- Lib.keys f ;; tensor_loop f ks ([], 0).

(** The [with] block.  [info] is mutated in place, so what was assigned
    before an exception stays assigned: the resulting [info] is returned
    next to the outcome.  Leaving the block only releases the handle. *)
Definition with_block (f : Lib.Handle) (info : Info) : Info * result unit :=
  match Lib.metadata f with
  | Raise e => (info, Raise e)
  | Ok m =>
      let info1 := assign_metadata info m in
      match read_tensors f with
      | Raise e => (info1, Raise e)
      | Ok (tensor_info, total_params) =>
          (set_tensors info1 tensor_info total_params, Ok tt)
      end
  end.

(** One iteration of [for framework in frameworks_to_try]: the [try]
    around [safe_open] and the [with] block. *)
Definition attempt (env : Lib.Env) (framework : string) (info : Info)
  : Info * result unit :=
  match Lib.safe_open env framework with
  | Raise e => (info, Raise e)
  | Ok f => with_block f info
  end.

Definition RuntimeError (msg : string) : exn := Exn "RuntimeError" msg.

Definition all_failed_prefix : string :=
  "Error reading safetensor file with all frameworks. Last error: ".

(** The [for ... else] over the frameworks: a successful attempt breaks
    out and [info] is returned; an exception caught by [except Exception]
    is kept in [last_error] and the next framework is tried; any other
    exception leaves the function at once; the [else] branch raises. *)
Fixpoint try_frameworks (env : Lib.Env) (fws : list string) (info : Info)
  (last_error : option exn) : result Info :=
  match fws with
  | [] => Raise (RuntimeError (all_failed_prefix ++ str_last_error last_error))
  | framework :: rest =>
      match attempt env framework info with
      | (info', Ok _) => Ok info'
      | (info', Raise e) =>
          if is_Exception e then try_frameworks env rest info' (Some e)
          else Raise e
      end
  end.

Definition initial_info (p : string) (size : Z) : Info :=
  {| file_path := p;
     file_size := size;
     metadata := None;
     tensors := [];
     tensor_count := 0;
     total_parameters := 0 |}.

Definition get_safetensor_info (env : Lib.Env) : result Info :=
  size <- Lib.st_size env ;;
  try_frameworks env frameworks_to_try (initial_info (Lib.path env) size) None.

(** Sum of the ['parameters'] fields of a [tensors] dict. *)
Definition sum_parameters (d : dict TensorInfo) : Z :=
  fold_right (fun kv acc => parameters (snd kv) + acc) 0 d.

(** Product of the dimensions of a shape; 1 for the empty shape. *)
Definition product (dims : list Z) : Z := fold_right Z.mul 1 dims.

(** ** Predicates used in the statements *)

(** The entry [v] stored under [k] is what the handle's tensor [k]
    reports. *)
Definition entry_of (f : Lib.Handle) (k : string) (v : TensorInfo) : Prop :=
  exists t,
    Lib.get_tensor f k = Ok t /\
    Lib.shape t = Ok (shape v) /\
    Lib.dtype t = Ok (dtype v) /\
    Lib.numel t = Ok (parameters v) /\
    Lib.nbytes t = Ok (size_bytes v).

(** Outcome of one framework attempt; it does not depend on the [info]
    the attempt starts from ([attempt_outcome_any_info]). *)
Definition outcome (env : Lib.Env) (framework : string) : result unit :=
  snd (attempt env framework (initial_info "" 0)).

(** The attempt on [fw] raises an exception that [except Exception]
    catches. *)
Definition fails (env : Lib.Env) (fw : string) : Prop :=
  exists e, outcome env fw = Raise e /\ is_Exception e = true.

(** What the frameworks guarantee of a tensor: the element count is the
    product of the shape and the byte count is the element count times the
    width of the element type. *)
Definition tensor_consistent (byte_width : string -> Z) (t : Lib.Tensor)
  : Prop :=
  forall sh dt n b,
    Lib.shape t = Ok sh -> Lib.dtype t = Ok dt ->
    Lib.numel t = Ok n -> Lib.nbytes t = Ok b ->
    n = product sh /\ b = n * byte_width dt.

(** [info] after the attempts on the frameworks [fws], when all of them
    raise. *)
Definition after_failures (env : Lib.Env) (fws : list string) (info : Info)
  : Info :=
  fold_left (fun i fw => fst (attempt env fw i)) fws info.

(** ** The file behind the library's answers *)

(** A file as far as the order of its header matters: the names of the
    header's tensor entries in the order of the header JSON, next to what
    [stat] and the library answer for the file. *)
Record SeenFile : Type := {
  header_names : list string;
  answers : Lib.Env
}.

(** Modelled from the spec: the binary layout of section 6, in which the
    first 8 bytes of a file are the header length as an unsigned
    little-endian integer.  The script never reads them, the library
    does. *)
Definition declared_header_length (bytes : list Z) : option Z :=
  if (8 <=? List.length bytes)%nat
  then Some (fold_right (fun b acc => b + 256 * acc) 0 (firstn 8 bytes))
  else None.

(** The file declares a header of [K > 0] bytes and is shorter than
    [8 + K] bytes. *)
Definition truncated (bytes : list Z) (K : Z) : Prop :=
  declared_header_length bytes = Some K /\
  0 < K /\
  Z.of_nat (List.length bytes) < 8 + K.

(** How a rejected file reaches the script: [safe_open] raises, under the
    given framework, an exception of a subclass of [Exception] (the
    library's [SafetensorError], or an [ImportError] when the framework
    is not installed). *)
Definition rejects (env : Lib.Env) (fw : string) : Prop :=
  exists e, Lib.safe_open env fw = Raise e /\ is_Exception e = true.

(** The library's part in a truncated file: it compares the declared
    header length with the bytes present and rejects the file under
    every framework. *)
Definition library_checks_length (bytes : list Z) (env : Lib.Env) : Prop :=
  forall K, truncated bytes K ->
    forall fw, In fw frameworks_to_try -> rejects env fw.

(** ** Sample files *)

Module Sample.

(** A torch tensor of the given shape and element width. *)
Definition torch_tensor (sh : list Z) (dt : string) (width : Z)
  : Lib.Tensor :=
  {| Lib.shape := Ok sh;
     Lib.dtype := Ok dt;
     Lib.numel := Ok (product sh);
     Lib.nbytes := Ok (product sh * width) |}.

Definition no_numel : exn :=
  Exn "AttributeError" "'numpy.ndarray' object has no attribute 'numel'".

(** A numpy array: it has no [numel] method. *)
Definition numpy_array (sh : list Z) (dt : string) (width : Z)
  : Lib.Tensor :=
  {| Lib.shape := Ok sh;
     Lib.dtype := Ok dt;
     Lib.numel := Raise no_numel;
     Lib.nbytes := Ok (product sh * width) |}.

Definition no_such_tensor (k : string) : exn :=
  Exn "SafetensorError" ("File does not contain tensor " ++ k).

Definition torch_width (dt : string) : Z :=
  if String.eqb dt "torch.float32" then 4
  else if String.eqb dt "torch.float16" then 2
  else if String.eqb dt "torch.int64" then 8
  else 1.

(** A handle on two tensors that enumerates [b] before [a]. *)
Definition two_tensors (mk : list Z -> string -> Z -> Lib.Tensor)
  (m : option (dict string)) : Lib.Handle :=
  {| Lib.metadata := Ok m;
     Lib.keys := Ok ["b"; "a"];
     Lib.get_tensor := fun k =>
       if String.eqb k "b" then Ok (mk [2; 3] "torch.float32" 4)
       else if String.eqb k "a" then Ok (mk [] "torch.float16" 2)
       else Raise (no_such_tensor k) |}.

Definition no_module (name : string) : exn :=
  Exn "ModuleNotFoundError" ("No module named '" ++ name ++ "'").

(** The same header, opened for a framework whose package is not
    installed: building a tensor fails on the import. *)
Definition two_tensors_unimportable (package : string) : Lib.Handle :=
  {| Lib.metadata := Ok None;
     Lib.keys := Ok ["b"; "a"];
     Lib.get_tensor := fun k => Raise (no_module package) |}.

(** Header [{"__metadata__": {"format": "pt"}}]: no tensor at all. *)
Definition metadata_only : Lib.Handle :=
  {| Lib.metadata := Ok (Some [("format", "pt")]);
     Lib.keys := Ok [];
     Lib.get_tensor := fun k => Raise (no_such_tensor k) |}.

(** torch is installed, the file is read by the first framework. *)
Definition env_torch (m : option (dict string)) : Lib.Env :=
  {| Lib.path := "model.safetensors";
     Lib.st_size := Ok 154;
     Lib.safe_open := fun fw => Ok (two_tensors torch_tensor m) |}.

(** torch is missing, so the first attempt raises on [safe_open]; the
    file holds no tensor, so the second attempt has nothing to build and
    succeeds. *)
Definition env_no_torch : Lib.Env :=
  {| Lib.path := "empty.safetensors";
     Lib.st_size := Ok 40;
     Lib.safe_open := fun fw =>
       if String.eqb fw "pt" then Raise (no_module "torch")
       else Ok metadata_only |}.

Definition rejected : exn :=
  Exn "SafetensorError"
    "Error while deserializing header: InvalidHeaderLength".

(** A file of 8 bytes whose prefix declares a header of 1 byte: the
    library rejects it under every framework. *)
Definition env_truncated : Lib.Env :=
  {| Lib.path := "short.safetensors";
     Lib.st_size := Ok 8;
     Lib.safe_open := fun fw => Raise rejected |}.

(** Only numpy is installed: the first three attempts fail on an import,
    the last one on the missing [numel]. *)
Definition env_only_numpy : Lib.Env :=
  {| Lib.path := "model.safetensors";
     Lib.st_size := Ok 154;
     Lib.safe_open := fun fw =>
       if String.eqb fw "pt" then Raise (no_module "torch")
       else if String.eqb fw "tf"
       then Ok (two_tensors_unimportable "tensorflow")
       else if String.eqb fw "flax"
       then Ok (two_tensors_unimportable "jax")
       else Ok (two_tensors numpy_array None) |}.

(** The file whose header reads
    [{"b": F32 [2,3] at [0,24), "a": F16 [] at [24,26)}], as the library
    answers for it: [keys()] lists the names sorted. *)
Definition two_tensors_sorted : Lib.Handle :=
  {| Lib.metadata := Ok None;
     Lib.keys := Ok ["a"; "b"];
     Lib.get_tensor := Lib.get_tensor (two_tensors torch_tensor None) |}.

Definition file_b_a : SeenFile :=
  {| header_names := ["b"; "a"];
     answers :=
       {| Lib.path := "model.safetensors";
          Lib.st_size := Ok 154;
          Lib.safe_open := fun fw => Ok two_tensors_sorted |} |}.

Definition report_a_b : Info :=
  {| file_path := "model.safetensors";
     file_size := 154;
     metadata := None;
     tensors :=
       [("a", {| shape := []; dtype := "torch.float16";
                 parameters := 1; size_bytes := 2 |});
        ("b", {| shape := [2; 3]; dtype := "torch.float32";
                 parameters := 6; size_bytes := 24 |})];
     tensor_count := 2;
     total_parameters := 7 |}.

(** The 8 bytes of [env_truncated]: a declared header length of 1 and
    nothing after it. *)
Definition truncated_bytes : list Z := [1; 0; 0; 0; 0; 0; 0; 0].

Definition rejected_otherwise : exn :=
  Exn "SafetensorError" "Error while deserializing header: HeaderTooSmall".

(** [env_truncated] for a library whose last framework words the
    rejection differently. *)
Definition env_truncated_last_differs : Lib.Env :=
  {| Lib.path := "short.safetensors";
     Lib.st_size := Ok 8;
     Lib.safe_open := fun fw =>
       if String.eqb fw "numpy" then Raise rejected_otherwise
       else Raise rejected |}.

Definition interrupt : exn := BaseExn "KeyboardInterrupt" "".

(** The user interrupts the run while the second framework opens the
    file; torch is missing. *)
Definition env_interrupted : Lib.Env :=
  {| Lib.path := "model.safetensors";
     Lib.st_size := Ok 154;
     Lib.safe_open := fun fw =>
       if String.eqb fw "pt" then Raise (no_module "torch")
       else if String.eqb fw "tf" then Raise interrupt
       else Ok (two_tensors torch_tensor None) |}.

Definition report_metadata_only : Info :=
  {| file_path := "empty.safetensors";
     file_size := 40;
     metadata := Some [("format", "pt")];
     tensors := [];
     tensor_count := 0;
     total_parameters := 0 |}.

Definition report_two_tensors (m : option (dict string)) : Info :=
  {| file_path := "model.safetensors";
     file_size := 154;
     metadata := m;
     tensors :=
       [("b", {| shape := [2; 3]; dtype := "torch.float32";
                 parameters := 6; size_bytes := 24 |});
        ("a", {| shape := []; dtype := "torch.float16";
                 parameters := 1; size_bytes := 2 |})];
     tensor_count := 2;
     total_parameters := 7 |}.

End Sample.

(** ** Rendering: [format_as_text] and [format_as_json] *)

(** Reversed digits with a comma after every complete group of three that
    is followed by a further digit. *)
Fixpoint group3 (rev_digits : list ascii) : list ascii :=
  match rev_digits with
  | a :: b :: c :: ((_ :: _) as rest) =>
      a :: b :: c :: ","%char :: group3 rest
  | _ => rev_digits
  end.

(** [f"{n:,}"] for an [int]: sign, then the decimal digits grouped by
    three from the right. *)
Definition format_comma (n : Z) : string :=
  (if n <? 0 then "-" else "")
    ++ string_of_list_ascii
         (rev (group3 (rev (list_ascii_of_string (str_int (Z.abs n)))))).

Definition is_comma (c : ascii) : bool := Ascii.eqb c ","%char.

Definition remove_commas (s : string) : string :=
  string_of_list_ascii
    (filter (fun c => negb (is_comma c)) (list_ascii_of_string s)).

Definition count_commas (s : string) : nat :=
  List.length (filter is_comma (list_ascii_of_string s)).

Definition newline : string := String "010"%char EmptyString.

(** [str(KeyError(k))] is the [repr] of the key. *)
Definition KeyError (k : string) : exn := Exn "KeyError" ("'" ++ k ++ "'").

(** [d[k]] on a dict in which the key may be missing. *)
Definition getitem {A : Type} (k : string) (item : option A) : result A :=
  match item with
  | Some a => Ok a
  | None => Raise (KeyError k)
  end.

(** The dicts handed to the renderers: [info] itself or one of the two
    filtered dicts of [main]; each of the six keys is present or not. *)
Module Keys.

Record InfoDict : Type := {
  file_path : option string;
  file_size : option Z;
  metadata : option (option (dict string));
  tensors : option (dict TensorInfo);
  tensor_count : option Z;
  total_parameters : option Z
}.

End Keys.

(** [info] as returned by [get_safetensor_info]: all six keys. *)
Definition as_dict (info : Info) : Keys.InfoDict :=
  {| Keys.file_path := Some (file_path info);
     Keys.file_size := Some (file_size info);
     Keys.metadata := Some (metadata info);
     Keys.tensors := Some (tensors info);
     Keys.tensor_count := Some (tensor_count info);
     Keys.total_parameters := Some (total_parameters info) |}.

(** [.items()] of a metadata value that passed the truth test. *)
Definition metadata_items (m : option (dict string)) : dict string :=
  match m with
  | Some d => d
  | None => []
  end.

(** [f"{key}: {value}"] for each metadata item. *)
Definition metadata_lines (d : dict string) : list string :=
  map (fun kv => fst kv ++ ": " ++ snd kv) d.

(** [shape_str]: the dimensions joined by the multiplication sign. *)
Definition shape_str (sh : list Z) : string :=
  String.concat "×" (map str_int sh).

(** The four lines of a tensor block that precede its size. *)
Definition tensor_head_lines (name : string) (ti : TensorInfo) : list string :=
  [name ++ ":";
   "  Shape: [" ++ shape_str (shape ti) ++ "]";
   "  Dtype: " ++ dtype ti;
   "  Parameters: " ++ format_comma (parameters ti)].

Definition size_line (size : string) : string := "  Size: " ++ size.

(** The loop over [info['tensors'].items()] of [format_as_text]. *)
Fixpoint text_tensor_lines (ts : dict TensorInfo) : result (list string) :=
  match ts with
  | [] => Ok []
  | (name, ti) :: rest =>
      size <- format_bytes (size_bytes ti) ;;
      more <- text_tensor_lines rest ;;
      Ok (tensor_head_lines name ti ++ size_line size :: "" :: more)%list
  end.

(** The five lines on the file. *)
Definition file_lines (path human : string) (size count total : Z)
  : list string :=
  ["SafeTensor File: " ++ path;
   "File Size: " ++ human ++ " (" ++ format_comma size ++ " bytes)";
   "Tensor Count: " ++ str_int count;
   "Total Parameters: " ++ format_comma total;
   ""].

(** The metadata section, which is always printed. *)
Definition metadata_section (m : option (dict string)) : list string :=
  if truthy m
  then ("=== METADATA ===" :: metadata_lines (metadata_items m) ++ [""])%list
  else ["=== METADATA ==="; "No metadata found"; ""].

(** The list [lines] at the end of [format_as_text]. *)
Definition format_as_text_lines (info : Keys.InfoDict) : result (list string) :=
  path <- getitem "file_path" (Keys.file_path info) ;;
  size <- getitem "file_size" (Keys.file_size info) ;;
  human <- format_bytes size ;;
  count <- getitem "tensor_count" (Keys.tensor_count info) ;;
  total <- getitem "total_parameters" (Keys.total_parameters info) ;;
  m <- getitem "metadata" (Keys.metadata info) ;;
  ts <- getitem "tensors" (Keys.tensors info) ;;
  tensor_section <-
    match ts with
    | [] => Ok []
    | _ :: _ => l <- text_tensor_lines ts ;; Ok ("=== TENSORS ===" :: l)
    end ;;
  Ok (file_lines path human size count total
      ++ metadata_section m ++ tensor_section)%list.

Definition format_as_text (info : Keys.InfoDict) : result string :=
  lines <- format_as_text_lines info ;; Ok (String.concat newline lines).

(** [json_info]: a copy of the dict with the two formatted values added. *)
Record JsonInfo : Type := {
  json_base : Keys.InfoDict;
  file_size_human : string;
  total_parameters_human : string
}.

(** [json.dumps(json_info, indent=indent, ensure_ascii=False)] belongs to
    the standard library and is the parameter [dumps]. *)
Definition format_as_json (dumps : JsonInfo -> Z -> string)
  (info : Keys.InfoDict) (indent : Z) : result string :=
  size <- getitem "file_size" (Keys.file_size info) ;;
  human <- format_bytes size ;;
  total <- getitem "total_parameters" (Keys.total_parameters info) ;;
  Ok (dumps {| json_base := info;
               file_size_human := human;
               total_parameters_human := format_comma total |} indent).

(** ** The command line: [main] *)

Module Cli.

(** [--format], restricted by [choices] to the two names. *)
Inductive Format : Type := json | text.

(** The parsed arguments other than the file. *)
Record Args : Type := {
  format : Format;
  metadata_only : bool;
  tensors_only : bool
}.

(** The file named on the command line: [args.file.exists()],
    [args.file.is_file()] and what inspecting it answers. *)
Record World : Type := {
  file_exists : bool;
  file_is_file : bool;
  env : Lib.Env
}.

(** What a run leaves behind: the strings printed to standard output and
    to standard error, one per [print] call (a string may hold newlines
    of its own), and the exit status. *)
Record Output : Type := {
  stdout : list string;
  stderr : list string;
  exit_code : Z
}.

(** The dict [filtered_info]. *)
Definition filtered_info (args : Args) (info : Info) : Keys.InfoDict :=
  if metadata_only args then
    {| Keys.file_path := Some (file_path info);
       Keys.file_size := None;
       Keys.metadata := Some (metadata info);
       Keys.tensors := None;
       Keys.tensor_count := None;
       Keys.total_parameters := None |}
  else if tensors_only args then
    {| Keys.file_path := Some (file_path info);
       Keys.file_size := None;
       Keys.metadata := None;
       Keys.tensors := Some (tensors info);
       Keys.tensor_count := Some (tensor_count info);
       Keys.total_parameters := Some (total_parameters info) |}
  else as_dict info.

(** The loop of the [--tensors-only] text output: the lines printed so
    far and whether [format_bytes] raised; the four lines before the size
    are printed before the size is formatted. *)
Fixpoint print_tensors (ts : dict TensorInfo) : list string * result unit :=
  match ts with
  | [] => ([], Ok tt)
  | (name, ti) :: rest =>
      match format_bytes (size_bytes ti) with
      | Raise e => (tensor_head_lines name ti, Raise e)
      | Ok size =>
          let (out, r) := print_tensors rest in
          ((tensor_head_lines name ti ++ size_line size :: "" :: out)%list, r)
      end
  end.

(** A renderer that returns one string to print. *)
Definition print_result (r : result string) : list string * result unit :=
  match r with
  | Ok s => ([s], Ok tt)
  | Raise e => ([], Raise e)
  end.

(** The [try] block of [main]: what was printed and how the block ended. *)
Definition try_block (dumps : JsonInfo -> Z -> string) (args : Args)
  (e : Lib.Env) : list string * result unit :=
  match get_safetensor_info e with
  | Raise exc => ([], Raise exc)
  | Ok info =>
      let filtered := filtered_info args info in
      match format args with
      | json => print_result (format_as_json dumps filtered 2)
      | text =>
          if metadata_only args then
            match getitem "metadata" (Keys.metadata filtered) with
            | Raise exc => ([], Raise exc)
            | Ok m =>
                if truthy m
                then ("=== METADATA ===" :: metadata_lines (metadata_items m),
                      Ok tt)
                else (["No metadata found"], Ok tt)
            end
          else if tensors_only args then
            match getitem "tensors" (Keys.tensors filtered) with
            | Raise exc => (["=== TENSORS ==="], Raise exc)
            | Ok ts =>
                let (out, r) := print_tensors ts in
                ("=== TENSORS ===" :: out, r)
            end
          else print_result (format_as_text filtered)
      end
  end.

(** [main] after argument parsing: the two checks on the file, the [try]
    block, and [except Exception] turning an exception it catches into
    one [print] to standard error and exit status 1.  An exception it
    does not catch leaves [main]: the result is [Raise], and what the
    interpreter then prints and returns is not the script's doing. *)
Definition main (dumps : JsonInfo -> Z -> string) (args : Args) (w : World)
  : result Output :=
  if negb (file_exists w) then
    Ok {| stdout := [];
          stderr := ["Error: File '" ++ Lib.path (env w) ++ "' not found."];
          exit_code := 1 |}
  else if negb (file_is_file w) then
    Ok {| stdout := [];
          stderr := ["Error: '" ++ Lib.path (env w) ++ "' is not a file."];
          exit_code := 1 |}
  else
    match try_block dumps args (env w) with
    | (out, Ok _) => Ok {| stdout := out; stderr := []; exit_code := 0 |}
    | (out, Raise exc) =>
        if is_Exception exc then
          Ok {| stdout := out;
                stderr := ["Error: " ++ exn_msg exc];
                exit_code := 1 |}
        else Raise exc
    end.

End Cli.

(** A stand-in for [json.dumps] in the runs below. *)
Definition sample_dumps (j : JsonInfo) (indent : Z) : string :=
  "{" ++ file_size_human j ++ "; " ++ total_parameters_human j ++ "}".

(** ** Tactics for the unit cases of [format_bytes] *)

Ltac close_powers :=
  repeat match goal with
  | |- context [Z.pow ?b (Z.of_nat ?e)] =>
      let c := eval vm_compute in (Z.pow b (Z.of_nat e)) in
      change (Z.pow b (Z.of_nat e)) with c
  | |- context [Z.pow ?b (Z.of_nat ?e + 1)] =>
      let c := eval vm_compute in (Z.pow b (Z.of_nat e + 1)) in
      change (Z.pow b (Z.of_nat e + 1)) with c
  | H : context [Z.pow ?b (Z.of_nat ?e)] |- _ =>
      let c := eval vm_compute in (Z.pow b (Z.of_nat e)) in
      change (Z.pow b (Z.of_nat e)) with c in H
  end.

Ltac unit_case k :=
  left; exists k;
  split; [reflexivity |];
  split; [close_powers; lia |];
  split;
  [ let j := fresh "j" in
    intros j Hj;
    do 5 (destruct j as [| j]; [close_powers; lia |]); lia
  | close_powers; lia ].

(** * Properties *)

(** ** Running the model on the samples *)

Example torch_reads_two_tensors :
  get_safetensor_info (Sample.env_torch (Some [("format", "pt")]))
  = Ok (Sample.report_two_tensors (Some [("format", "pt")])).
Proof. reflexivity. Qed.

Example second_framework_reads :
  get_safetensor_info Sample.env_no_torch = Ok Sample.report_metadata_only.
Proof. reflexivity. Qed.

Example only_numpy_raises :
  get_safetensor_info Sample.env_only_numpy
  = Raise (RuntimeError
      "Error reading safetensor file with all frameworks. Last error: 'numpy.ndarray' object has no attribute 'numel'").
Proof. reflexivity. Qed.

Example truncated_raises :
  get_safetensor_info Sample.env_truncated
  = Raise (RuntimeError
      "Error reading safetensor file with all frameworks. Last error: Error while deserializing header: InvalidHeaderLength").
Proof. reflexivity. Qed.

Example format_bytes_500 : format_bytes 500 = Ok "500.0 B".
Proof. reflexivity. Qed.

Example format_bytes_1536 : format_bytes 1536 = Ok "1.5 KB".
Proof. reflexivity. Qed.

Example format_bytes_rounds_up :
  format_bytes (1024 * 1024 - 1) = Ok "1024.0 KB".
Proof. vm_compute. reflexivity. Qed.

Example format_bytes_tie_to_even :
  format_bytes (1024 + 256) = Ok "1.2 KB" /\ format_bytes (1024 + 768) = Ok "1.8 KB".
Proof. split; vm_compute; reflexivity. Qed.

Example format_bytes_pb : format_bytes (3 * 1024 ^ 6) = Ok "3072.0 PB".
Proof. vm_compute. reflexivity. Qed.

(** ** The result monad *)

Lemma bind_ok {A B : Type} (r : result A) (k : A -> result B) (b : B) :
  bind r k = Ok b -> exists a, r = Ok a /\ k a = Ok b.
Proof.
  destruct r as [a | e]; simpl; intros H.
  - exists a. split; [reflexivity | exact H].
  - discriminate H.
Qed.

(** ** Dicts *)

Lemma dict_set_fresh {V : Type} (k : string) (v : V) (d : dict V) :
  ~ In k (dict_keys d) -> dict_set k v d = (d ++ [(k, v)])%list.
Proof.
  induction d as [| [k' v'] d IH]; simpl; intros Hk.
  - reflexivity.
  - destruct (String.eqb_spec k k') as [-> | Hne].
    + exfalso. apply Hk. left. reflexivity.
    + rewrite IH; [reflexivity | intros Hin; apply Hk; right; exact Hin].
Qed.

Lemma dict_set_keys {V : Type} (k : string) (v : V) (d : dict V) (x : string) :
  In x (dict_keys (dict_set k v d)) <-> x = k \/ In x (dict_keys d).
Proof.
  induction d as [| [k' v'] d IH]; simpl.
  - intuition.
  - destruct (String.eqb_spec k k') as [-> | Hne]; simpl.
    + intuition.
    + rewrite IH. intuition.
Qed.

Lemma dict_set_in {V : Type} (k : string) (v : V) (d : dict V)
  (x : string) (w : V) :
  In (x, w) (dict_set k v d) -> (x = k /\ w = v) \/ In (x, w) d.
Proof.
  induction d as [| [k' v'] d IH]; simpl.
  - intros [H | []]. inversion H. left. split; reflexivity.
  - destruct (String.eqb_spec k k') as [-> | Hne]; simpl.
    + intros [H | H].
      * inversion H. left. split; reflexivity.
      * right. right. exact H.
    + intros [H | H].
      * right. left. exact H.
      * destruct (IH H) as [Hl | Hr]; [left; exact Hl | right; right; exact Hr].
Qed.

Lemma sum_parameters_app (d1 d2 : dict TensorInfo) :
  sum_parameters (d1 ++ d2)%list = sum_parameters d1 + sum_parameters d2.
Proof.
  unfold sum_parameters.
  induction d1 as [| kv d1 IH]; simpl; [reflexivity | rewrite IH; lia].
Qed.

(** ** The tensor loop *)

Lemma tensor_step_ok (f : Lib.Handle) (acc acc' : dict TensorInfo * Z)
  (k : string) :
  tensor_step f acc k = Ok acc' ->
  exists v, entry_of f k v /\
    acc' = (dict_set k v (fst acc), snd acc + parameters v).
Proof.
  unfold tensor_step. intros H.
  apply bind_ok in H. destruct H as [t [Ht H]].
  apply bind_ok in H. destruct H as [sh [Hsh H]].
  apply bind_ok in H. destruct H as [dt [Hdt H]].
  apply bind_ok in H. destruct H as [n [Hn H]].
  apply bind_ok in H. destruct H as [b [Hb H]].
  inversion H; subst acc'; clear H.
  exists {| shape := sh; dtype := dt; parameters := n; size_bytes := b |}.
  split; [| reflexivity].
  exists t. simpl. auto.
Qed.

(** With distinct keys that are not yet in the dict, the loop appends one
    entry per key, in the order of the keys, and adds up their
    parameter counts. *)
Lemma tensor_loop_appends (f : Lib.Handle) (ks : list string) :
  forall (d d' : dict TensorInfo) (t t' : Z),
    NoDup ks ->
    (forall k, In k ks -> ~ In k (dict_keys d)) ->
    tensor_loop f ks (d, t) = Ok (d', t') ->
    exists new,
      d' = (d ++ new)%list /\
      dict_keys new = ks /\
      t' = t + sum_parameters new /\
      Forall (fun kv => entry_of f (fst kv) (snd kv)) new.
Proof.
  induction ks as [| k ks IH]; simpl; intros d d' t t' Hnd Hfresh H.
  - inversion H; subst. exists []. rewrite app_nil_r. simpl.
    repeat split; [unfold sum_parameters; simpl; lia | constructor].
  - apply bind_ok in H. destruct H as [[d1 t1] [Hstep Hloop]].
    apply tensor_step_ok in Hstep. destruct Hstep as [v [Hv Hacc]].
    simpl in Hacc. inversion Hacc; subst d1 t1; clear Hacc.
    inversion Hnd as [| k0 ks0 Hnotin Hnd']; subst.
    rewrite dict_set_fresh in Hloop by (apply Hfresh; left; reflexivity).
    apply IH in Hloop; [| exact Hnd' |].
    + destruct Hloop as [new [Hd' [Hkeys [Ht' Hall]]]].
      exists ((k, v) :: new). repeat split.
      * rewrite Hd', <- app_assoc. reflexivity.
      * simpl. rewrite Hkeys. reflexivity.
      * rewrite Ht'. unfold sum_parameters. simpl. lia.
      * constructor; [exact Hv | exact Hall].
    + intros x Hx Hin. unfold dict_keys in Hin. rewrite map_app in Hin.
      apply in_app_or in Hin. destruct Hin as [Hin | Hin].
      * apply (Hfresh x); [right; exact Hx | exact Hin].
      * simpl in Hin. destruct Hin as [<- | []]. apply Hnotin. exact Hx.
Qed.

(** Without any assumption on the keys: the resulting dict holds exactly
    the old keys and the enumerated ones, and every new entry is what the
    handle reports for its key. *)
Lemma tensor_loop_entries (f : Lib.Handle) (ks : list string) :
  forall (d d' : dict TensorInfo) (t t' : Z),
    tensor_loop f ks (d, t) = Ok (d', t') ->
    (forall x, In x (dict_keys d') <-> In x (dict_keys d) \/ In x ks) /\
    (forall x w, In (x, w) d' -> In (x, w) d \/ (In x ks /\ entry_of f x w)).
Proof.
  induction ks as [| k ks IH]; simpl; intros d d' t t' H.
  - inversion H; subst. split; intros; intuition.
  - apply bind_ok in H. destruct H as [[d1 t1] [Hstep Hloop]].
    apply tensor_step_ok in Hstep. destruct Hstep as [v [Hv Hacc]].
    simpl in Hacc. inversion Hacc; subst d1 t1; clear Hacc.
    apply IH in Hloop. destruct Hloop as [Hkeys Hent]. split.
    + intros x. rewrite Hkeys, dict_set_keys. intuition.
    + intros x w Hin. apply Hent in Hin. destruct Hin as [Hin | [Hin Hw]].
      * apply dict_set_in in Hin. destruct Hin as [[-> ->] | Hin].
        -- right. split; [left; reflexivity | exact Hv].
        -- left. exact Hin.
      * right. split; [right; exact Hin | exact Hw].
Qed.

(** ** One framework attempt *)

Lemma assign_metadata_file (info : Info) (m : option (dict string)) :
  file_path (assign_metadata info m) = file_path info /\
  file_size (assign_metadata info m) = file_size info.
Proof.
  destruct m as [[| kv d] |]; simpl; split; reflexivity.
Qed.

Lemma assign_metadata_cases (info : Info) (m : option (dict string)) :
  (truthy m = false /\ assign_metadata info m = info) \/
  (exists d, m = Some d /\ d <> [] /\
     assign_metadata info m = set_metadata info d).
Proof.
  destruct m as [[| kv d] |]; simpl.
  - left. split; reflexivity.
  - right. exists (kv :: d). repeat split. discriminate.
  - left. split; reflexivity.
Qed.

Lemma attempt_outcome_any_info (env : Lib.Env) (fw : string) (info : Info) :
  snd (attempt env fw info) = outcome env fw.
Proof.
  unfold outcome, attempt, with_block.
  destruct (Lib.safe_open env fw) as [f | e]; [| reflexivity].
  destruct (Lib.metadata f) as [m | e]; [| reflexivity].
  destruct (read_tensors f) as [[ti tp] | e]; reflexivity.
Qed.

Lemma attempt_file (env : Lib.Env) (fw : string) (info : Info) :
  file_path (fst (attempt env fw info)) = file_path info /\
  file_size (fst (attempt env fw info)) = file_size info.
Proof.
  unfold attempt, with_block.
  destruct (Lib.safe_open env fw) as [f | e]; [| split; reflexivity].
  destruct (Lib.metadata f) as [m | e]; [| split; reflexivity].
  destruct (read_tensors f) as [[ti tp] | e]; simpl;
    apply assign_metadata_file.
Qed.

(** A successful attempt read the metadata and every tensor of one handle
    and stored the three tensor fields together. *)
Lemma attempt_ok_inv (env : Lib.Env) (fw : string) (info info' : Info)
  (u : unit) :
  attempt env fw info = (info', Ok u) ->
  exists f m ti tp,
    Lib.safe_open env fw = Ok f /\
    Lib.metadata f = Ok m /\
    read_tensors f = Ok (ti, tp) /\
    info' = set_tensors (assign_metadata info m) ti tp.
Proof.
  unfold attempt, with_block.
  destruct (Lib.safe_open env fw) as [f | e] eqn:Hopen; [| discriminate].
  destruct (Lib.metadata f) as [m | e] eqn:Hmeta; [| discriminate].
  destruct (read_tensors f) as [[ti tp] | e] eqn:Hread; [| discriminate].
  intros H. inversion H; subst.
  exists f, m, ti, tp. repeat split; assumption.
Qed.

(** What an attempt leaves in [info['metadata']], whether it succeeds or
    not: the old value, or a non-empty dict its handle returned. *)
Lemma attempt_metadata (env : Lib.Env) (fw : string) (info : Info) :
  metadata (fst (attempt env fw info)) = metadata info \/
  exists f d,
    Lib.safe_open env fw = Ok f /\ Lib.metadata f = Ok (Some d) /\
    d <> [] /\ metadata (fst (attempt env fw info)) = Some d.
Proof.
  unfold attempt, with_block.
  destruct (Lib.safe_open env fw) as [f | e] eqn:Hopen; [| left; reflexivity].
  destruct (Lib.metadata f) as [m | e] eqn:Hmeta; [| left; reflexivity].
  destruct (assign_metadata_cases info m) as [[_ Heq] | [d [-> [Hd Heq]]]].
  - left. destruct (read_tensors f) as [[ti tp] | e];
      cbn [fst set_tensors metadata]; rewrite Heq; reflexivity.
  - right. exists f, d. repeat split; try assumption.
    destruct (read_tensors f) as [[ti tp] | e];
      cbn [fst set_tensors metadata]; rewrite Heq; reflexivity.
Qed.

Lemma attempt_ext (env env' : Lib.Env) (fw : string) (info : Info) :
  Lib.safe_open env fw = Lib.safe_open env' fw ->
  attempt env fw info = attempt env' fw info.
Proof.
  unfold attempt. intros ->. reflexivity.
Qed.

(** ** The loop over the frameworks *)

(** An attempt that raises an [Exception] is followed by the next one. *)
Lemma try_frameworks_fail_step (env : Lib.Env) (fw : string)
  (rest : list string) (info : Info) (last : option exn) (e : exn) :
  outcome env fw = Raise e -> is_Exception e = true ->
  try_frameworks env (fw :: rest) info last
  = try_frameworks env rest (fst (attempt env fw info)) (Some e).
Proof.
  intros H He. rewrite <- (attempt_outcome_any_info env fw info) in H.
  simpl. destruct (attempt env fw info) as [info' r]. simpl in *.
  rewrite H, He. reflexivity.
Qed.

(** An attempt that raises anything else ends the loop with that very
    exception. *)
Lemma try_frameworks_escape_step (env : Lib.Env) (fw : string)
  (rest : list string) (info : Info) (last : option exn) (e : exn) :
  outcome env fw = Raise e -> is_Exception e = false ->
  try_frameworks env (fw :: rest) info last = Raise e.
Proof.
  intros H He. rewrite <- (attempt_outcome_any_info env fw info) in H.
  simpl. destruct (attempt env fw info) as [info' r]. simpl in *.
  rewrite H, He. reflexivity.
Qed.

Lemma try_frameworks_ok_step (env : Lib.Env) (fw : string)
  (rest : list string) (info : Info) (last : option exn) (u : unit) :
  outcome env fw = Ok u ->
  try_frameworks env (fw :: rest) info last
  = Ok (fst (attempt env fw info)).
Proof.
  intros H. rewrite <- (attempt_outcome_any_info env fw info) in H.
  simpl. destruct (attempt env fw info) as [info' r]. simpl in *.
  rewrite H. reflexivity.
Qed.

(** Failing attempts are skipped; the first success decides. *)
Lemma try_frameworks_first_success (env : Lib.Env) (pre : list string) :
  forall (fw : string) (post : list string) (info : Info)
         (last : option exn) (u : unit),
    (forall g, In g pre -> fails env g) ->
    outcome env fw = Ok u ->
    try_frameworks env (pre ++ fw :: post)%list info last
    = Ok (fst (attempt env fw (after_failures env pre info))).
Proof.
  induction pre as [| g pre IH]; intros fw post info last u Hpre Hfw.
  - simpl app. apply (try_frameworks_ok_step _ _ _ _ _ u). exact Hfw.
  - destruct (Hpre g (or_introl eq_refl)) as [e [He Hexc]].
    change ((g :: pre) ++ fw :: post)%list
      with (g :: (pre ++ fw :: post))%list.
    rewrite (try_frameworks_fail_step _ _ _ _ _ e He Hexc).
    rewrite (IH fw post _ (Some e) u); [reflexivity | | exact Hfw].
    intros g' Hg'. apply Hpre. right. exact Hg'.
Qed.

(** Failing attempts are skipped; the first exception that is not an
    [Exception] leaves the loop as it is. *)
Lemma try_frameworks_first_escape (env : Lib.Env) (pre : list string) :
  forall (fw : string) (post : list string) (info : Info)
         (last : option exn) (e : exn),
    (forall g, In g pre -> fails env g) ->
    outcome env fw = Raise e -> is_Exception e = false ->
    try_frameworks env (pre ++ fw :: post)%list info last = Raise e.
Proof.
  induction pre as [| g pre IH]; intros fw post info last e Hpre Hfw Hexc.
  - simpl app. apply (try_frameworks_escape_step _ _ _ _ _ e Hfw Hexc).
  - destruct (Hpre g (or_introl eq_refl)) as [e' [He' Hexc']].
    change ((g :: pre) ++ fw :: post)%list
      with (g :: (pre ++ fw :: post))%list.
    rewrite (try_frameworks_fail_step _ _ _ _ _ e' He' Hexc').
    apply IH; [| exact Hfw | exact Hexc].
    intros g' Hg'. apply Hpre. right. exact Hg'.
Qed.

(** A report that is returned comes from a successful attempt on one of
    the frameworks. *)
Lemma try_frameworks_ok_inv (env : Lib.Env) (fws : list string) :
  forall (info : Info) (last : option exn) (r : Info),
    try_frameworks env fws info last = Ok r ->
    exists fw f ti tp,
      In fw fws /\
      Lib.safe_open env fw = Ok f /\
      read_tensors f = Ok (ti, tp) /\
      tensors r = ti /\
      tensor_count r = dict_len ti /\
      total_parameters r = tp /\
      file_path r = file_path info /\
      file_size r = file_size info.
Proof.
  induction fws as [| fw fws IH]; simpl; intros info last r H.
  - discriminate H.
  - destruct (attempt env fw info) as [info' [u | e]] eqn:Hatt.
    + inversion H; subst info'; clear H.
      destruct (attempt_ok_inv _ _ _ _ _ Hatt) as [f [m [ti [tp [Ho [_ [Hr Hi]]]]]]].
      exists fw, f, ti, tp. subst r. simpl.
      destruct (assign_metadata_file info m) as [Hp Hs].
      repeat split; auto.
    + destruct (is_Exception e); [| discriminate H].
      apply IH in H.
      destruct H as [fw' [f [ti [tp [Hin [Ho [Hr [H1 [H2 [H3 [H4 H5]]]]]]]]]]].
      exists fw', f, ti, tp.
      destruct (attempt_file env fw info) as [Hp Hs].
      rewrite Hatt in Hp, Hs. simpl in Hp, Hs.
      repeat split; auto; congruence.
Qed.

(** An invariant of [info['metadata']] that every handle's non-empty
    metadata satisfies holds of the returned report. *)
Lemma try_frameworks_metadata (env : Lib.Env)
  (Q : option (dict string) -> Prop) (fws : list string) :
  (forall fw f d, In fw fws -> Lib.safe_open env fw = Ok f ->
     Lib.metadata f = Ok (Some d) -> d <> [] -> Q (Some d)) ->
  forall (info : Info) (last : option exn) (r : Info),
    Q (metadata info) ->
    try_frameworks env fws info last = Ok r ->
    Q (metadata r).
Proof.
  induction fws as [| fw fws IH]; simpl; intros HQ info last r Hinfo H.
  - discriminate H.
  - assert (Hstep : Q (metadata (fst (attempt env fw info)))).
    { destruct (attempt_metadata env fw info) as [-> | [f [d [Ho [Hm [Hd ->]]]]]].
      - exact Hinfo.
      - apply (HQ fw f d); auto. }
    destruct (attempt env fw info) as [info' [u | e]]; simpl in Hstep.
    + inversion H; subst. exact Hstep.
    + destruct (is_Exception e); [| discriminate H].
      apply (IH (fun fw' f d Hin => HQ fw' f d (or_intror Hin))
               info' (Some e) r Hstep H).
Qed.

(** When the loop raises, either one attempt raised that exception and it
    is not an [Exception], or every attempt raised an [Exception]. *)
Lemma try_frameworks_raise_inv (env : Lib.Env) (fws : list string) :
  forall (info : Info) (last : option exn) (e : exn),
    try_frameworks env fws info last = Raise e ->
    (is_Exception e = false /\
     exists fw, In fw fws /\ outcome env fw = Raise e) \/
    (forall fw, In fw fws -> fails env fw).
Proof.
  induction fws as [| g fws IH]; simpl; intros info last e H.
  - right. intros fw [].
  - pose proof (attempt_outcome_any_info env g info) as Hout.
    destruct (attempt env g info) as [info' [u | e']]; simpl in Hout.
    + discriminate H.
    + destruct (is_Exception e') eqn:Hexc.
      * destruct (IH _ _ _ H) as [[He [fw [Hin Hfw]]] | Hall].
        -- left. split; [exact He |]. exists fw.
           split; [right; exact Hin | exact Hfw].
        -- right. intros fw [<- | Hin].
           ++ exists e'. split; [symmetry; exact Hout | exact Hexc].
           ++ apply Hall. exact Hin.
      * inversion H; subst e'. left. split; [exact Hexc |].
        exists g. split; [left; reflexivity | symmetry; exact Hout].
Qed.

Lemma after_failures_ext (env env' : Lib.Env) (fws : list string) :
  forall info,
    (forall g, In g fws -> Lib.safe_open env g = Lib.safe_open env' g) ->
    after_failures env fws info = after_failures env' fws info.
Proof.
  unfold after_failures.
  induction fws as [| g fws IH]; simpl; intros info H; [reflexivity |].
  rewrite (attempt_ext env env' g info) by (apply H; left; reflexivity).
  apply IH. intros g' Hg'. apply H. right. exact Hg'.
Qed.

(** With no exception other than [Exception]s around, one successful
    attempt is enough for a report. *)
Lemma try_frameworks_some_success (env : Lib.Env) (fw : string) (u : unit)
  (fws : list string) :
  In fw fws -> outcome env fw = Ok u ->
  (forall g e, In g fws -> outcome env g = Raise e ->
     is_Exception e = true) ->
  forall (info : Info) (last : option exn),
    exists r, try_frameworks env fws info last = Ok r.
Proof.
  induction fws as [| g fws IH]; intros Hin Hok Hexc info last.
  - destruct Hin.
  - destruct (outcome env g) as [u' | e] eqn:Hg.
    + rewrite (try_frameworks_ok_step _ _ _ _ _ u' Hg). eexists. reflexivity.
    + rewrite (try_frameworks_fail_step _ _ _ _ _ e Hg
                 (Hexc g e (or_introl eq_refl) Hg)).
      destruct Hin as [-> | Hin]; [congruence |].
      apply (IH Hin Hok).
      intros g' e' Hg' He'. apply (Hexc g' e' (or_intror Hg') He').
Qed.

(** The error raised when each of the four attempts raises an
    [Exception]. *)
Lemma all_four_fail (env : Lib.Env) (info : Info) (e1 e2 e3 e4 : exn) :
  outcome env "pt" = Raise e1 -> is_Exception e1 = true ->
  outcome env "tf" = Raise e2 -> is_Exception e2 = true ->
  outcome env "flax" = Raise e3 -> is_Exception e3 = true ->
  outcome env "numpy" = Raise e4 -> is_Exception e4 = true ->
  try_frameworks env frameworks_to_try info None
  = Raise (RuntimeError (all_failed_prefix ++ exn_msg e4)).
Proof.
  intros H1 X1 H2 X2 H3 X3 H4 X4. unfold frameworks_to_try.
  rewrite (try_frameworks_fail_step _ _ _ _ _ e1 H1 X1).
  rewrite (try_frameworks_fail_step _ _ _ _ _ e2 H2 X2).
  rewrite (try_frameworks_fail_step _ _ _ _ _ e3 H3 X3).
  rewrite (try_frameworks_fail_step _ _ _ _ _ e4 H4 X4).
  reflexivity.
Qed.

(** When every attempt raises an [Exception], the loop raises the
    [RuntimeError] that quotes the numpy attempt. *)
Lemma all_fail_wrapped (env : Lib.Env) (info : Info) :
  (forall fw, In fw frameworks_to_try -> fails env fw) ->
  exists e4,
    outcome env "numpy" = Raise e4 /\ is_Exception e4 = true /\
    try_frameworks env frameworks_to_try info None
    = Raise (RuntimeError (all_failed_prefix ++ exn_msg e4)).
Proof.
  intros Hall.
  destruct (Hall "pt") as [e1 [H1 X1]]; [simpl; auto |].
  destruct (Hall "tf") as [e2 [H2 X2]]; [simpl; auto |].
  destruct (Hall "flax") as [e3 [H3 X3]]; [simpl; auto |].
  destruct (Hall "numpy") as [e4 [H4 X4]]; [simpl; auto |].
  exists e4. split; [exact H4 |]. split; [exact X4 |].
  apply (all_four_fail env info e1 e2 e3 e4); assumption.
Qed.

Lemma outcome_open_raises (env : Lib.Env) (fw : string) (e : exn) :
  Lib.safe_open env fw = Raise e -> outcome env fw = Raise e.
Proof.
  unfold outcome, attempt. intros ->. reflexivity.
Qed.

(** ** The whole inspection *)

Lemma read_tensors_ok_inv (f : Lib.Handle) (ti : dict TensorInfo) (tp : Z) :
  read_tensors f = Ok (ti, tp) ->
  exists ks, Lib.keys f = Ok ks /\ tensor_loop f ks ([], 0) = Ok (ti, tp).
Proof.
  unfold read_tensors. intros H. apply bind_ok in H. exact H.
Qed.

Lemma get_ok_inv (env : Lib.Env) (info : Info) :
  get_safetensor_info env = Ok info ->
  exists size fw f ks,
    Lib.st_size env = Ok size /\
    In fw frameworks_to_try /\
    Lib.safe_open env fw = Ok f /\
    Lib.keys f = Ok ks /\
    tensor_loop f ks ([], 0) = Ok (tensors info, total_parameters info) /\
    tensor_count info = dict_len (tensors info) /\
    file_path info = Lib.path env /\
    file_size info = size.
Proof.
  unfold get_safetensor_info. intros H.
  apply bind_ok in H. destruct H as [size [Hsize H]].
  apply try_frameworks_ok_inv in H.
  destruct H as [fw [f [ti [tp [Hin [Ho [Hr [H1 [H2 [H3 [H4 H5]]]]]]]]]]].
  apply read_tensors_ok_inv in Hr. destruct Hr as [ks [Hks Hloop]].
  exists size, fw, f, ks. subst ti tp. simpl in H4, H5.
  repeat split; assumption.
Qed.

Lemma get_with_size (env : Lib.Env) (size : Z) :
  Lib.st_size env = Ok size ->
  get_safetensor_info env
  = try_frameworks env frameworks_to_try
      (initial_info (Lib.path env) size) None.
Proof.
  unfold get_safetensor_info. intros ->. reflexivity.
Qed.

Lemma dict_set_keys_nodup {V : Type} (k : string) (v : V) (d : dict V) :
  NoDup (dict_keys d) -> NoDup (dict_keys (dict_set k v d)).
Proof.
  induction d as [| [k' v'] d IH]; simpl; intros Hnd.
  - constructor; [intros [] | constructor].
  - inversion Hnd as [| ? ? Hnotin Hnd']; subst.
    destruct (String.eqb_spec k k') as [-> | Hne]; simpl.
    + constructor; assumption.
    + constructor; [| apply IH; exact Hnd'].
      intros Hin. apply dict_set_keys in Hin.
      destruct Hin as [-> | Hin]; [apply Hne; reflexivity | contradiction].
Qed.

Lemma dict_set_length {V : Type} (k : string) (v : V) (d : dict V) :
  (List.length (dict_set k v d) <= S (List.length d))%nat.
Proof.
  induction d as [| [k' v'] d IH]; simpl; [lia |].
  destruct (String.eqb k k'); simpl; lia.
Qed.

(** What the loop does for any enumeration of keys, repeated keys
    included: the names stay distinct, the dict grows by at most one entry
    per key, and the count is raised by [numel()] once per enumerated
    key. *)
Lemma tensor_loop_counts (f : Lib.Handle) (ks : list string) :
  forall (d d' : dict TensorInfo) (t t' : Z),
    NoDup (dict_keys d) ->
    tensor_loop f ks (d, t) = Ok (d', t') ->
    NoDup (dict_keys d') /\
    (List.length d' <= List.length d + List.length ks)%nat /\
    exists ns,
      Forall2 (fun k n => exists tensor,
                 Lib.get_tensor f k = Ok tensor /\ Lib.numel tensor = Ok n)
        ks ns /\
      t' = t + fold_right Z.add 0 ns.
Proof.
  induction ks as [| k ks IH]; simpl; intros d d' t t' Hnd H.
  - inversion H; subst. split; [exact Hnd |]. split; [lia |].
    exists []. split; [constructor | simpl; lia].
  - apply bind_ok in H. destruct H as [[d1 t1] [Hstep Hloop]].
    apply tensor_step_ok in Hstep.
    destruct Hstep as [v [[tensor [Ht [_ [_ [Hn _]]]]] Hacc]].
    simpl in Hacc. inversion Hacc; subst d1 t1; clear Hacc.
    apply IH in Hloop; [| apply dict_set_keys_nodup; exact Hnd].
    destruct Hloop as [Hnd' [Hlen [ns [Hns Ht']]]].
    split; [exact Hnd' |]. split.
    + pose proof (dict_set_length k v d). lia.
    + exists (parameters v :: ns). split.
      * constructor; [exists tensor; split; assumption | exact Hns].
      * simpl. lia.
Qed.

(** A returned report in full: the successful attempt, the [info] it
    started from, and where that [info] has its metadata from. *)
Lemma try_frameworks_ok_full (env : Lib.Env) (fws : list string) :
  forall (info : Info) (last : option exn) (r : Info),
    try_frameworks env fws info last = Ok r ->
    exists fw f m ti tp prev,
      In fw fws /\
      Lib.safe_open env fw = Ok f /\
      Lib.metadata f = Ok m /\
      read_tensors f = Ok (ti, tp) /\
      r = set_tensors (assign_metadata prev m) ti tp /\
      file_path prev = file_path info /\
      file_size prev = file_size info /\
      (metadata prev = metadata info \/
       exists fw' f' d,
         In fw' fws /\ Lib.safe_open env fw' = Ok f' /\
         Lib.metadata f' = Ok (Some d) /\ d <> [] /\
         metadata prev = Some d).
Proof.
  induction fws as [| fw fws IH]; simpl; intros info last r H.
  - discriminate H.
  - destruct (attempt env fw info) as [info' [u | e]] eqn:Hatt.
    + inversion H; subst info'; clear H.
      destruct (attempt_ok_inv _ _ _ _ _ Hatt)
        as [f [m [ti [tp [Ho [Hm [Hr Hi]]]]]]].
      exists fw, f, m, ti, tp, info.
      repeat split; auto.
    + destruct (is_Exception e); [| discriminate H].
      apply IH in H.
      destruct H as [fw' [f [m [ti [tp [prev
        [Hin [Ho [Hm [Hr [Heq [Hp [Hs Hmeta]]]]]]]]]]]]].
      exists fw', f, m, ti, tp, prev.
      destruct (attempt_file env fw info) as [Hp' Hs'].
      rewrite Hatt in Hp', Hs'. simpl in Hp', Hs'.
      split; [right; exact Hin |]. split; [exact Ho |].
      split; [exact Hm |]. split; [exact Hr |]. split; [exact Heq |].
      split; [congruence |]. split; [congruence |].
      destruct Hmeta as [Hsame | [fw2 [f2 [d [Hin2 [Ho2 [Hm2 [Hd Hprev]]]]]]]].
      * destruct (attempt_metadata env fw info)
          as [Hkeep | [f1 [d [Ho1 [Hm1 [Hd Hset]]]]]];
          rewrite Hatt in *; simpl in *.
        -- left. congruence.
        -- right. exists fw, f1, d.
           repeat split; auto. congruence.
      * right. exists fw2, f2, d. repeat split; auto.
Qed.

(** * The claims *)

(** C1.  In the report of a successfully inspected file, [tensor_count] is
    the number of entries of [tensors] and [total_parameters] is the sum
    of the entries' ['parameters'] fields.  The keys a handle enumerates
    are the names of a JSON object, hence distinct. *)
Theorem report_counts_and_totals (env : Lib.Env) (info : Info) :
  (forall fw f ks, Lib.safe_open env fw = Ok f -> Lib.keys f = Ok ks ->
     NoDup ks) ->
  get_safetensor_info env = Ok info ->
  tensor_count info = Z.of_nat (List.length (tensors info)) /\
  total_parameters info = sum_parameters (tensors info).
Proof.
  intros Hnodup H.
  destruct (get_ok_inv env info H)
    as [size [fw [f [ks [_ [_ [Ho [Hks [Hloop [Hcount _]]]]]]]]]].
  split; [exact Hcount |].
  apply tensor_loop_appends in Hloop.
  - destruct Hloop as [new [Hd [_ [Ht _]]]]. simpl in Hd.
    rewrite Ht, Hd. lia.
  - apply (Hnodup fw f ks Ho Hks).
  - intros k _ [].
Qed.

Lemma report_counts_and_totals_witness :
  tensor_count (Sample.report_two_tensors None) = 2 /\
  total_parameters (Sample.report_two_tensors None) = 6 + (1 + 0).
Proof.
  apply (report_counts_and_totals (Sample.env_torch None)).
  - intros fw f ks Ho Hk. inversion Ho; subst f. inversion Hk; subst ks.
    repeat constructor; simpl; intuition discriminate.
  - reflexivity.
Defined.

(** C2, as the code has it.  The tensors of the report are in the order
    in which [f.keys()] enumerates them: the script inserts them one by
    one and sorts nothing.  Which order that is, the library decides. *)
Theorem report_order_is_enumeration_order (env : Lib.Env) (info : Info) :
  (forall fw f ks, In fw frameworks_to_try ->
     Lib.safe_open env fw = Ok f -> Lib.keys f = Ok ks -> NoDup ks) ->
  get_safetensor_info env = Ok info ->
  exists fw f,
    In fw frameworks_to_try /\
    Lib.safe_open env fw = Ok f /\
    Lib.keys f = Ok (dict_keys (tensors info)).
Proof.
  intros Hnodup H.
  destruct (get_ok_inv env info H)
    as [size [fw [f [ks [_ [Hin [Ho [Hks [Hloop _]]]]]]]]].
  exists fw, f. split; [exact Hin |]. split; [exact Ho |].
  apply tensor_loop_appends in Hloop.
  - destruct Hloop as [new [Hd [Hnew _]]]. simpl in Hd.
    rewrite Hd, Hnew. exact Hks.
  - apply (Hnodup fw f ks Hin Ho Hks).
  - intros k _ [].
Qed.

Lemma report_order_is_enumeration_order_witness :
  exists fw f,
    In fw frameworks_to_try /\
    Lib.safe_open (answers Sample.file_b_a) fw = Ok f /\
    Lib.keys f = Ok ["a"; "b"].
Proof.
  apply (report_order_is_enumeration_order (answers Sample.file_b_a)
           Sample.report_a_b).
  - intros fw f ks _ Ho Hk. inversion Ho; subst f. inversion Hk; subst ks.
    repeat constructor; simpl; intuition discriminate.
  - reflexivity.
Defined.

(** C2, as stated, fails: the header lists [b] before [a], the library
    enumerates the names sorted, and the report has [a] before [b]. *)
Lemma report_order_differs_from_header :
  get_safetensor_info (answers Sample.file_b_a) = Ok Sample.report_a_b /\
  dict_keys (tensors Sample.report_a_b) = ["a"; "b"] /\
  dict_keys (tensors Sample.report_a_b) <> header_names Sample.file_b_a.
Proof.
  split; [reflexivity |]. split; [reflexivity | discriminate].
Qed.

(** C3, as the code has it.  When the header has no [__metadata__], or has
    an empty one, the report's [metadata] is [None]: the guard
    [if metadata:] treats the two alike. *)
Theorem metadata_none_when_absent_or_empty (env : Lib.Env) (info : Info) :
  (forall fw f m, In fw frameworks_to_try ->
     Lib.safe_open env fw = Ok f -> Lib.metadata f = Ok m ->
     m = None \/ m = Some []) ->
  get_safetensor_info env = Ok info ->
  metadata info = None.
Proof.
  intros Hfalsy H. unfold get_safetensor_info in H.
  apply bind_ok in H. destruct H as [size [_ H]].
  apply (try_frameworks_metadata env (fun mo => mo = None)
           frameworks_to_try) in H; [exact H | | reflexivity].
  intros fw f d Hin Ho Hm Hd.
  destruct (Hfalsy fw f (Some d) Hin Ho Hm) as [Hn | Hn]; [discriminate |].
  inversion Hn. contradiction.
Qed.

Lemma metadata_none_when_absent_or_empty_witness :
  metadata (Sample.report_two_tensors None) = None.
Proof.
  apply (metadata_none_when_absent_or_empty (Sample.env_torch (Some []))).
  - intros fw f m _ Ho Hm. inversion Ho; subst f. inversion Hm.
    right. reflexivity.
  - reflexivity.
Defined.

(** C3, as stated, fails: a header with an empty [__metadata__] map and a
    header without the key give one and the same report. *)
Lemma empty_metadata_indistinguishable :
  Lib.metadata (Sample.two_tensors Sample.torch_tensor (Some []))
    <> Lib.metadata (Sample.two_tensors Sample.torch_tensor None) /\
  get_safetensor_info (Sample.env_torch (Some []))
    = get_safetensor_info (Sample.env_torch None).
Proof.
  split; [discriminate | reflexivity].
Qed.

(** C4.  An inspection either raises, and no report exists, or returns a
    report every field of which is set from the file: its path and size;
    one entry, with the four values its tensor reports, for every key
    that one handle enumerates, and no other entry; the count of the
    entries; the sum of [numel()] over the enumerated keys; and the
    metadata, which is the handle's own when that is a non-empty dict and
    otherwise [None] or a non-empty dict that an earlier attempt on the
    same file stored. *)
Theorem all_or_nothing (env : Lib.Env) :
  (exists e, get_safetensor_info env = Raise e) \/
  (exists info size fw f m ks ns,
     get_safetensor_info env = Ok info /\
     Lib.st_size env = Ok size /\
     file_path info = Lib.path env /\
     file_size info = size /\
     In fw frameworks_to_try /\
     Lib.safe_open env fw = Ok f /\
     Lib.metadata f = Ok m /\
     Lib.keys f = Ok ks /\
     (forall k, In k (dict_keys (tensors info)) <-> In k ks) /\
     (forall k v, In (k, v) (tensors info) -> entry_of f k v) /\
     tensor_count info = Z.of_nat (List.length (tensors info)) /\
     Forall2 (fun k n => exists tensor,
                Lib.get_tensor f k = Ok tensor /\ Lib.numel tensor = Ok n)
       ks ns /\
     total_parameters info = fold_right Z.add 0 ns /\
     match m with
     | Some (kv :: d) => metadata info = Some (kv :: d)
     | _ =>
         metadata info = None \/
         exists fw' f' d,
           In fw' frameworks_to_try /\ Lib.safe_open env fw' = Ok f' /\
           Lib.metadata f' = Ok (Some d) /\ d <> [] /\
           metadata info = Some d
     end).
Proof.
  destruct (get_safetensor_info env) as [info | e] eqn:H;
    [right | left; exists e; reflexivity].
  unfold get_safetensor_info in H.
  apply bind_ok in H. destruct H as [size [Hsz H]].
  apply try_frameworks_ok_full in H.
  destruct H as [fw [f [m [ti [tp [prev
    [Hin [Ho [Hm [Hr [Heq [Hp [Hs Hmeta]]]]]]]]]]]]].
  apply read_tensors_ok_inv in Hr. destruct Hr as [ks [Hks Hloop]].
  destruct (tensor_loop_entries _ _ _ _ _ _ Hloop) as [Hkeys Hent].
  destruct (tensor_loop_counts f ks [] ti 0 tp (NoDup_nil string) Hloop)
    as [_ [_ [ns [Hns Htp]]]].
  destruct (assign_metadata_file prev m) as [Hp' Hs'].
  exists info, size, fw, f, m, ks, ns. subst info.
  cbn [file_path file_size metadata tensors tensor_count total_parameters
       set_tensors].
  split; [reflexivity |]. split; [exact Hsz |].
  split; [rewrite Hp', Hp; reflexivity |].
  split; [rewrite Hs', Hs; reflexivity |].
  split; [exact Hin |]. split; [exact Ho |]. split; [exact Hm |].
  split; [exact Hks |].
  split.
  { intros k. split; intros Hk.
    - apply Hkeys in Hk. destruct Hk as [[] | Hk]. exact Hk.
    - apply Hkeys. right. exact Hk. }
  split.
  { intros k v Hkv. destruct (Hent k v Hkv) as [[] | [_ Hv]]. exact Hv. }
  split; [reflexivity |]. split; [exact Hns |]. split; [lia |].
  assert (Hprev :
    metadata prev = None \/
    exists fw' f' d,
      In fw' frameworks_to_try /\ Lib.safe_open env fw' = Ok f' /\
      Lib.metadata f' = Ok (Some d) /\ d <> [] /\ metadata prev = Some d).
  { destruct Hmeta as [Hsame | Hex]; [left; exact Hsame | right; exact Hex]. }
  destruct m as [[| kv d] |]; cbn [assign_metadata truthy]; auto.
Qed.

Lemma all_or_nothing_witness :
  (exists e, get_safetensor_info Sample.env_truncated = Raise e) /\
  (exists info, get_safetensor_info (Sample.env_torch None) = Ok info /\
     tensor_count info = 2 /\ total_parameters info = 7).
Proof.
  split.
  - destruct (all_or_nothing Sample.env_truncated) as [He | Hok].
    + exact He.
    + destruct Hok as [info [size [fw [f [m [ks [ns [Hget _]]]]]]]].
      discriminate Hget.
  - destruct (all_or_nothing (Sample.env_torch None)) as [He | Hok].
    + destruct He as [e He]. discriminate He.
    + destruct Hok as [info [size [fw [f [m [ks [ns [Hget _]]]]]]]].
      exists info. split; [exact Hget |].
      inversion Hget. split; reflexivity.
Defined.

(** C5, as the code has it.  For every [K > 0], a file whose first 8
    bytes declare a header of [K] bytes and which is shorter than [8 + K]
    bytes, the library rejecting such a file under every framework,
    always makes the inspection fail, with a [RuntimeError]: the fixed
    prefix followed by the text of the last framework's rejection.  The
    script has no error kind of its own for truncation. *)
Theorem truncated_file_raises_runtime_error (bytes : list Z) (K : Z)
  (env : Lib.Env) :
  Lib.st_size env = Ok (Z.of_nat (List.length bytes)) ->
  library_checks_length bytes env ->
  truncated bytes K ->
  exists e e4,
    Lib.safe_open env "numpy" = Raise e4 /\
    get_safetensor_info env = Raise e /\
    e = Exn "RuntimeError" (all_failed_prefix ++ exn_msg e4).
Proof.
  intros Hsize Hlib Htr.
  rewrite (get_with_size env _ Hsize).
  pose proof (Hlib K Htr) as Hrej.
  assert (Hfails : forall fw, In fw frameworks_to_try -> fails env fw).
  { intros fw Hin. destruct (Hrej fw Hin) as [e [He Hexc]].
    exists e. split; [apply outcome_open_raises; exact He | exact Hexc]. }
  destruct (all_fail_wrapped env
              (initial_info (Lib.path env) (Z.of_nat (List.length bytes)))
              Hfails) as [e4 [H4 [_ Hraise]]].
  destruct (Hrej "numpy") as [e4' [He4' _]]; [simpl; auto |].
  rewrite (outcome_open_raises env "numpy" e4' He4') in H4.
  inversion H4; subst e4'.
  exists (RuntimeError (all_failed_prefix ++ exn_msg e4)), e4.
  split; [exact He4' |]. split; [exact Hraise | reflexivity].
Qed.

Lemma truncated_file_raises_runtime_error_witness :
  exists e e4,
    Lib.safe_open Sample.env_truncated "numpy" = Raise e4 /\
    get_safetensor_info Sample.env_truncated = Raise e /\
    e = Exn "RuntimeError" (all_failed_prefix ++ exn_msg e4).
Proof.
  apply (truncated_file_raises_runtime_error Sample.truncated_bytes 1
           Sample.env_truncated).
  - reflexivity.
  - intros K _ fw _. exists Sample.rejected. split; reflexivity.
  - split; [reflexivity |]. split; [lia | simpl; lia].
Defined.

(** C5, as stated, fails: the 8-byte file declaring a 1-byte header makes
    the inspection raise an exception of class [RuntimeError], not of a
    kind [TruncatedFile]. *)
Lemma truncated_file_error_kind :
  truncated Sample.truncated_bytes 1 /\
  Lib.st_size Sample.env_truncated
    = Ok (Z.of_nat (List.length Sample.truncated_bytes)) /\
  exists e,
    get_safetensor_info Sample.env_truncated = Raise e /\
    exn_class e = "RuntimeError" /\
    exn_class e <> "TruncatedFile".
Proof.
  split; [split; [reflexivity | split; [lia | simpl; lia]] |].
  split; [reflexivity |].
  eexists. split; [reflexivity |]. split; [reflexivity | discriminate].
Qed.

(** C6, as the code has it.  An [Exception] inside one framework attempt
    is caught and the next framework is tried.  When an attempt after
    failed ones succeeds, the report is returned and the earlier errors
    are dropped.  When all four attempts fail, as they do on a structural
    failure of the file, the caller sees a [RuntimeError] that holds the
    fixed prefix and the text of the last attempt's exception and nothing
    else, and no other [Exception] ever reaches the caller from the loop.
    An exception that is not an [Exception] is not caught: it leaves at
    once, as it is. *)
Theorem errors_are_retried_then_wrapped (env : Lib.Env) (size : Z) :
  Lib.st_size env = Ok size ->
  (forall pre fw post u,
     frameworks_to_try = (pre ++ fw :: post)%list ->
     (forall g, In g pre -> fails env g) ->
     outcome env fw = Ok u ->
     exists info, get_safetensor_info env = Ok info) /\
  ((forall fw, In fw frameworks_to_try -> fails env fw) ->
   exists e4,
     outcome env "numpy" = Raise e4 /\
     get_safetensor_info env
     = Raise (RuntimeError (all_failed_prefix ++ exn_msg e4))) /\
  (forall e, get_safetensor_info env = Raise e -> is_Exception e = true ->
     exists e4,
       outcome env "numpy" = Raise e4 /\
       e = RuntimeError (all_failed_prefix ++ exn_msg e4)) /\
  (forall pre fw post e,
     frameworks_to_try = (pre ++ fw :: post)%list ->
     (forall g, In g pre -> fails env g) ->
     outcome env fw = Raise e -> is_Exception e = false ->
     get_safetensor_info env = Raise e).
Proof.
  intros Hsize. rewrite (get_with_size env size Hsize).
  split; [| split; [| split]].
  - intros pre fw post u Hsplit Hpre Hok. rewrite Hsplit.
    rewrite (try_frameworks_first_success env pre fw post _ None u Hpre Hok).
    eexists. reflexivity.
  - intros Hall.
    destruct (all_fail_wrapped env (initial_info (Lib.path env) size) Hall)
      as [e4 [H4 [_ Hraise]]].
    exists e4. split; assumption.
  - intros e H Hexc.
    destruct (try_frameworks_raise_inv env _ _ _ _ H)
      as [[Hbase _] | Hall]; [congruence |].
    destruct (all_fail_wrapped env (initial_info (Lib.path env) size) Hall)
      as [e4 [H4 [_ Hraise]]].
    exists e4. split; [exact H4 |]. congruence.
  - intros pre fw post e Hsplit Hpre Hfw Hexc. rewrite Hsplit.
    apply (try_frameworks_first_escape env pre fw post _ None e
             Hpre Hfw Hexc).
Qed.

Lemma errors_are_retried_then_wrapped_witness :
  (exists info, get_safetensor_info Sample.env_no_torch = Ok info) /\
  (exists e4,
     outcome Sample.env_truncated "numpy" = Raise e4 /\
     get_safetensor_info Sample.env_truncated
     = Raise (RuntimeError (all_failed_prefix ++ exn_msg e4))) /\
  get_safetensor_info Sample.env_interrupted = Raise Sample.interrupt.
Proof.
  split; [| split].
  - apply (proj1 (errors_are_retried_then_wrapped
                    Sample.env_no_torch 40 eq_refl)
             ["pt"] "tf" ["flax"; "numpy"] tt).
    + reflexivity.
    + intros g [<- | []]. eexists. split; reflexivity.
    + reflexivity.
  - apply (proj1 (proj2 (errors_are_retried_then_wrapped
                           Sample.env_truncated 8 eq_refl))).
    intros fw _. exists Sample.rejected. split; reflexivity.
  - apply (proj2 (proj2 (proj2 (errors_are_retried_then_wrapped
                                  Sample.env_interrupted 154 eq_refl)))
             ["pt"] "tf" ["flax"; "numpy"]).
    + reflexivity.
    + intros g [<- | []]. eexists. split; reflexivity.
    + reflexivity.
    + reflexivity.
Defined.

(** C6, as stated, fails at a structural failure: the truncated file is
    rejected by the first framework, yet the caller does not receive that
    failure but, after the remaining frameworks have been tried as well,
    a [RuntimeError] made of a prefix and a text.  That the later
    attempts are made shows in the outcome: it changes with the answer
    of the last framework alone. *)
Lemma structural_failure_is_retried_and_wrapped :
  outcome Sample.env_truncated "pt" = Raise Sample.rejected /\
  get_safetensor_info Sample.env_truncated
    = Raise (RuntimeError (all_failed_prefix ++ exn_msg Sample.rejected)) /\
  RuntimeError (all_failed_prefix ++ exn_msg Sample.rejected)
    <> Sample.rejected /\
  (forall fw, fw <> "numpy"%string ->
     Lib.safe_open Sample.env_truncated_last_differs fw
     = Lib.safe_open Sample.env_truncated fw) /\
  get_safetensor_info Sample.env_truncated_last_differs
    <> get_safetensor_info Sample.env_truncated.
Proof.
  split; [reflexivity |]. split; [reflexivity |].
  split; [discriminate |]. split; [| discriminate].
  intros fw Hfw. simpl.
  destruct (String.eqb_spec fw "numpy") as [-> | _];
    [contradiction | reflexivity].
Qed.

(** C7.  The frameworks tried are the four names pt, tf, flax, numpy, in
    that order.  The first one whose attempt succeeds, the attempts
    before it having failed, yields the report, and what the library
    would answer for the frameworks after it has no influence.  When all
    four attempts fail, the error raised carries the message of the numpy
    attempt alone.  An attempt fails when it raises an [Exception]. *)
Theorem frameworks_tried_in_order (env : Lib.Env) (size : Z) :
  Lib.st_size env = Ok size ->
  frameworks_to_try = ["pt"; "tf"; "flax"; "numpy"] /\
  (forall pre fw post u,
     frameworks_to_try = (pre ++ fw :: post)%list ->
     (forall g, In g pre -> fails env g) ->
     outcome env fw = Ok u ->
     exists info f,
       get_safetensor_info env = Ok info /\
       Lib.safe_open env fw = Ok f /\
       read_tensors f = Ok (tensors info, total_parameters info) /\
       forall env',
         Lib.path env' = Lib.path env ->
         Lib.st_size env' = Lib.st_size env ->
         (forall g, In g (pre ++ [fw])%list ->
            Lib.safe_open env' g = Lib.safe_open env g) ->
         get_safetensor_info env' = Ok info) /\
  (forall e1 e2 e3 e4,
     outcome env "pt" = Raise e1 -> is_Exception e1 = true ->
     outcome env "tf" = Raise e2 -> is_Exception e2 = true ->
     outcome env "flax" = Raise e3 -> is_Exception e3 = true ->
     outcome env "numpy" = Raise e4 -> is_Exception e4 = true ->
     get_safetensor_info env
     = Raise (RuntimeError (all_failed_prefix ++ exn_msg e4))).
Proof.
  intros Hsize. split; [reflexivity |]. split.
  - intros pre fw post u Hsplit Hpre Hfw.
    rewrite (get_with_size env size Hsize), Hsplit.
    rewrite (try_frameworks_first_success env pre fw post _ None u Hpre Hfw).
    destruct (attempt env fw
                (after_failures env pre (initial_info (Lib.path env) size)))
      as [info r] eqn:Hatt.
    pose proof (attempt_outcome_any_info env fw
                  (after_failures env pre (initial_info (Lib.path env) size)))
      as Hout.
    rewrite Hatt, Hfw in Hout. simpl in Hout. subst r.
    destruct (attempt_ok_inv _ _ _ _ _ Hatt) as [f [m [ti [tp [Ho [_ [Hr Hi]]]]]]].
    exists info, f. simpl fst. repeat split.
    + exact Ho.
    + subst info. exact Hr.
    + intros env' Hpath Hsz' Hsame.
      rewrite Hsize in Hsz'.
      rewrite (get_with_size env' size Hsz'), Hsplit, Hpath.
      assert (Hpre' : forall g, In g pre -> fails env' g).
      { intros g Hg. destruct (Hpre g Hg) as [e [He Hexc]]. exists e.
        split; [| exact Hexc].
        unfold outcome in *.
        rewrite (attempt_ext env' env g) by
          (apply Hsame; apply in_or_app; left; exact Hg).
        exact He. }
      assert (Hfw' : outcome env' fw = Ok u).
      { unfold outcome in *.
        rewrite (attempt_ext env' env fw) by
          (apply Hsame; apply in_or_app; right; left; reflexivity).
        exact Hfw. }
      rewrite (try_frameworks_first_success env' pre fw post _ None u
                 Hpre' Hfw').
      rewrite (after_failures_ext env' env pre) by
        (intros g Hg; apply Hsame; apply in_or_app; left; exact Hg).
      rewrite (attempt_ext env' env fw) by
        (apply Hsame; apply in_or_app; right; left; reflexivity).
      rewrite Hatt. reflexivity.
  - intros e1 e2 e3 e4 H1 X1 H2 X2 H3 X3 H4 X4.
    rewrite (get_with_size env size Hsize).
    apply (all_four_fail env _ e1 e2 e3 e4); assumption.
Qed.

Lemma frameworks_tried_in_order_witness :
  get_safetensor_info Sample.env_only_numpy
  = Raise (RuntimeError
      "Error reading safetensor file with all frameworks. Last error: 'numpy.ndarray' object has no attribute 'numel'")
  /\ exists info f,
       get_safetensor_info Sample.env_no_torch = Ok info /\
       Lib.safe_open Sample.env_no_torch "tf" = Ok f /\
       read_tensors f = Ok (tensors info, total_parameters info).
Proof.
  split.
  - apply (proj2 (proj2 (frameworks_tried_in_order
                           Sample.env_only_numpy 154 eq_refl))
             (Sample.no_module "torch") (Sample.no_module "tensorflow")
             (Sample.no_module "jax") Sample.no_numel); reflexivity.
  - destruct (proj1 (proj2 (frameworks_tried_in_order
                              Sample.env_no_torch 40 eq_refl))
                ["pt"] "tf" ["flax"; "numpy"] tt) as [info [f [H1 [H2 [H3 _]]]]].
    + reflexivity.
    + intros g [<- | []]. eexists. split; reflexivity.
    + reflexivity.
    + exists info, f. repeat split; assumption.
Defined.

(** C8.  Every entry of a successful report has [parameters] equal to the
    product of its shape (1 for the empty shape) and [size_bytes] equal to
    [parameters] times the byte width of its dtype, the tensors handed out
    by the frameworks being consistent in this sense. *)
Theorem entry_size_is_parameters_times_width (byte_width : string -> Z)
  (env : Lib.Env) (info : Info) (name : string) (v : TensorInfo) :
  (forall fw f k t, In fw frameworks_to_try ->
     Lib.safe_open env fw = Ok f -> Lib.get_tensor f k = Ok t ->
     tensor_consistent byte_width t) ->
  get_safetensor_info env = Ok info ->
  In (name, v) (tensors info) ->
  parameters v = product (shape v) /\
  size_bytes v = parameters v * byte_width (dtype v).
Proof.
  intros Hlib H Hin.
  destruct (get_ok_inv env info H)
    as [size [fw [f [ks [_ [Hfw [Ho [_ [Hloop _]]]]]]]]].
  destruct (tensor_loop_entries _ _ _ _ _ _ Hloop) as [_ Hent].
  destruct (Hent name v Hin) as [[] | [_ [t [Ht [Hsh [Hdt [Hn Hb]]]]]]].
  apply (Hlib fw f name t Hfw Ho Ht (shape v) (dtype v)); assumption.
Qed.

Lemma entry_size_is_parameters_times_width_witness :
  6 = product [2; 3] /\ 24 = 6 * Sample.torch_width "torch.float32".
Proof.
  apply (entry_size_is_parameters_times_width Sample.torch_width
           (Sample.env_torch None) (Sample.report_two_tensors None) "b"
           {| shape := [2; 3]; dtype := "torch.float32";
              parameters := 6; size_bytes := 24 |}).
  - intros fw f k t _ Ho Ht. inversion Ho; subst f. simpl in Ht.
    destruct (String.eqb k "b").
    + inversion Ht; subst t. intros sh dt n b Hs Hd Hn Hb.
      inversion Hs; inversion Hd; inversion Hn; inversion Hb.
      split; reflexivity.
    + destruct (String.eqb k "a"); [| discriminate Ht].
      inversion Ht; subst t. intros sh dt n b Hs Hd Hn Hb.
      inversion Hs; inversion Hd; inversion Hn; inversion Hb.
      split; reflexivity.
  - reflexivity.
  - simpl. left. reflexivity.
Defined.

(** ** Floats and [format_bytes] *)

Lemma string_app_assoc (a b c : string) :
  ((a ++ b) ++ c = a ++ (b ++ c))%string.
Proof.
  induction a as [| ch a IH]; simpl; [reflexivity | rewrite IH; reflexivity].
Qed.

(** Rounding to nearest moves a quotient by at most one half. *)
Lemma round_half_even_close (num den : Z) :
  0 <= num -> 0 < den ->
  0 <= round_half_even num den /\
  2 * num - den <= 2 * (round_half_even num den * den) <= 2 * num + den.
Proof.
  intros Hnum Hden. unfold round_half_even.
  pose proof (Z.div_mod num den ltac:(lia)) as Hdm.
  pose proof (Z.mod_pos_bound num den Hden) as Hr.
  pose proof (Z.div_pos num den Hnum Hden) as Hq.
  destruct (Z.ltb_spec (2 * (num mod den)) den) as [H1 | H1].
  - split; [exact Hq | nia].
  - destruct (Z.ltb_spec den (2 * (num mod den))) as [H2 | H2].
    + split; [lia | nia].
    + destruct (Z.even (num / den)); (split; [lia | nia]).
Qed.

Lemma round53_small (a : Z) : 0 <= a < 2 ^ 53 -> round53 a = a.
Proof.
  intros [H0 H53]. unfold round53, bit_length.
  assert (Hsh : Z.max 0 ((if a =? 0 then 0 else Z.log2 a + 1) - 53) = 0).
  { destruct (Z.eqb_spec a 0) as [-> | Hne]; [reflexivity |].
    assert (Z.log2 a < 53) by (apply Z.log2_lt_pow2; lia). lia. }
  rewrite Hsh. change (2 ^ 0) with 1.
  unfold round_half_even. rewrite Z.div_1_r, Z.mod_1_r. simpl. lia.
Qed.

(** The shift applied by [round53] to a magnitude of more than 53 bits. *)
Lemma round53_shift (a : Z) :
  2 ^ 53 <= a ->
  exists sh, 1 <= sh /\ round53 a = round_half_even a (2 ^ sh) * 2 ^ sh /\
    2 ^ 52 * 2 ^ sh <= a < 2 ^ 53 * 2 ^ sh.
Proof.
  intros H53. assert (Hpos : 0 < a) by lia.
  unfold round53, bit_length.
  destruct (Z.eqb_spec a 0) as [-> | _]; [lia |].
  assert (Hlog : 53 <= Z.log2 a) by (apply Z.log2_le_pow2; lia).
  exists (Z.log2 a + 1 - 53).
  rewrite Z.max_r by lia. split; [lia |]. split; [reflexivity |].
  destruct (Z.log2_spec a Hpos) as [Hlo Hhi].
  rewrite <- !Z.pow_add_r by lia.
  replace (52 + (Z.log2 a + 1 - 53)) with (Z.log2 a) by lia.
  replace (53 + (Z.log2 a + 1 - 53)) with (Z.succ (Z.log2 a)) by lia.
  split; assumption.
Qed.

(** Below the overflow threshold the conversion succeeds; it is exact below
    2^53 and never falls under 2^52 from there on. *)
Lemma of_int_in_range (n : Z) :
  0 <= n < 2 ^ 1024 - 2 ^ 970 ->
  exists m, of_int n = Ok (Float m 0) /\
    (n < 2 ^ 53 -> m = n) /\ (2 ^ 53 <= n -> 2 ^ 52 <= m).
Proof.
  intros [H0 Hmax]. unfold of_int. rewrite Z.abs_eq by lia.
  destruct (Z.lt_ge_cases n (2 ^ 53)) as [Hsmall | Hbig].
  - rewrite round53_small by lia.
    destruct (Z.leb_spec (2 ^ 1024) n) as [Hover | _]; [lia |].
    exists (Z.sgn n * n). split; [reflexivity |]. split; [| lia].
    intros _. destruct (Z.eq_dec n 0) as [-> | Hne]; [reflexivity |].
    rewrite Z.sgn_pos by lia. lia.
  - destruct (round53_shift n Hbig) as [sh [Hsh [Hr [Hlo Hhi]]]].
    assert (Hden : 0 < 2 ^ sh) by (apply Z.pow_pos_nonneg; lia).
    destruct (round_half_even_close n (2 ^ sh) H0 Hden) as [_ [Hl Hu]].
    rewrite <- Hr in Hl, Hu.
    assert (Hsh971 : 2 ^ sh <= 2 ^ 971).
    { apply Z.pow_le_mono_r; [lia |].
      destruct (Z.le_gt_cases sh 971) as [Hle | Hgt]; [exact Hle |].
      assert (2 ^ 972 <= 2 ^ sh) by (apply Z.pow_le_mono_r; lia).
      change (2 ^ 972) with (2 ^ 920 * 2 ^ 52) in H.
      change (2 ^ 1024) with (2 ^ 920 * 2 ^ 104) in Hmax. nia. }
    change (2 ^ 971) with (2 * 2 ^ 970) in Hsh971.
    change (2 ^ 1024) with (2 ^ 54 * 2 ^ 970) in Hmax.
    destruct (Z.leb_spec (2 ^ 1024) (round53 n)) as [Hover | _].
    + change (2 ^ 1024) with (2 ^ 54 * 2 ^ 970) in Hover. lia.
    + exists (Z.sgn n * round53 n). split; [reflexivity |].
      split; [lia |]. intros _. rewrite Z.sgn_pos by lia. nia.
Qed.

Lemma round_half_even_ge_quotient (num den : Z) :
  num / den <= round_half_even num den.
Proof.
  unfold round_half_even.
  destruct (2 * (num mod den) <? den); [lia |].
  destruct (den <? 2 * (num mod den)); [lia |].
  destruct (Z.even (num / den)); lia.
Qed.

(** From 2^1024 - 2^970 on, the magnitude rounds to 2^1024 or more and the
    conversion raises. *)
Lemma of_int_overflow (n : Z) :
  2 ^ 1024 - 2 ^ 970 <= n -> of_int n = Raise OverflowError.
Proof.
  intros Hn.
  assert (H53 : 2 ^ 53 <= n).
  { change (2 ^ 1024 - 2 ^ 970) with (2 ^ 53 + (2 ^ 1024 - 2 ^ 970 - 2 ^ 53))
      in Hn.
    assert (0 <= 2 ^ 1024 - 2 ^ 970 - 2 ^ 53) by (vm_compute; discriminate).
    lia. }
  assert (H0 : 0 <= n) by (change (2 ^ 53) with 9007199254740992 in H53; lia).
  unfold of_int. rewrite Z.abs_eq by exact H0.
  destruct (round53_shift n H53) as [sh [Hsh [Hr [Hlo Hhi]]]].
  assert (Hden : 0 < 2 ^ sh) by (apply Z.pow_pos_nonneg; lia).
  assert (Hover : 2 ^ 1024 <= round53 n).
  { rewrite Hr.
    pose proof (round_half_even_ge_quotient n (2 ^ sh)) as Hq.
    assert (Hq52 : 2 ^ 52 <= n / 2 ^ sh)
      by (apply Z.div_le_lower_bound; lia).
    destruct (Z.le_gt_cases 972 sh) as [Hbig | Hsmall].
    - assert (HD : 2 ^ 972 <= 2 ^ sh) by (apply Z.pow_le_mono_r; lia).
      change (2 ^ 1024) with (2 ^ 52 * 2 ^ 972).
      apply Z.mul_le_mono_nonneg; lia.
    - assert (Hsh971 : sh = 971).
      { destruct (Z.le_gt_cases sh 970) as [Hle | Hgt]; [| lia].
        assert (HD : 2 ^ sh <= 2 ^ 970) by (apply Z.pow_le_mono_r; lia).
        exfalso.
        change (2 ^ 1024 - 2 ^ 970) with (2 ^ 53 * 2 ^ 970 + (2 ^ 1024 - 2 ^ 970 - 2 ^ 53 * 2 ^ 970)) in Hn.
        assert (0 <= 2 ^ 1024 - 2 ^ 970 - 2 ^ 53 * 2 ^ 970)
          by (vm_compute; discriminate).
        assert (2 ^ 53 * 2 ^ sh <= 2 ^ 53 * 2 ^ 970)
          by (apply Z.mul_le_mono_nonneg_l; [vm_compute; discriminate | exact HD]).
        lia. }
      subst sh. clear Hq Hsh.
      assert (Hqmax : n / 2 ^ 971 < 2 ^ 53)
        by (apply Z.div_lt_upper_bound; lia).
      assert (Hqmin : 2 ^ 53 - 1 <= n / 2 ^ 971).
      { apply Z.div_le_lower_bound; [exact Hden |].
        apply Z.le_trans with (2 ^ 1024 - 2 ^ 970); [| exact Hn].
        vm_compute; discriminate. }
      assert (Hqeq : n / 2 ^ 971 = 2 ^ 53 - 1) by lia.
      pose proof (Z.div_mod n (2 ^ 971) ltac:(lia)) as Hdm.
      rewrite Hqeq in Hdm.
      assert (Hrem : 2 ^ 971 <= 2 * (n mod 2 ^ 971)).
      { assert (Hc : 2 ^ 1024 - 2 ^ 970
                     = 2 ^ 971 * (2 ^ 53 - 1) + 2 ^ 970) by reflexivity.
        assert (Hd : 2 ^ 971 = 2 * 2 ^ 970) by reflexivity.
        lia. }
      assert (Hround : round_half_even n (2 ^ 971) = 2 ^ 53).
      { unfold round_half_even. rewrite Hqeq.
        destruct (Z.ltb_spec (2 * (n mod 2 ^ 971)) (2 ^ 971)) as [Hc | _];
          [lia |].
        destruct (2 ^ 971 <? 2 * (n mod 2 ^ 971)); reflexivity. }
      rewrite Hround. vm_compute. discriminate. }
  destruct (Z.leb_spec (2 ^ 1024) (round53 n)) as [_ | Hlt]; [reflexivity |].
  lia.
Qed.

(** The text of a non-negative float: integer part, point, one digit; the
    number printed is within half a tenth of the float. *)
Lemma format_1f_nonneg (m : Z) (s : nat) (tail : string) :
  0 <= m ->
  exists v d,
    (format_1f (Float m s) ++ tail
     = str_int v ++ "." ++ str_int d ++ tail)%string /\
    0 <= v /\ 0 <= d <= 9 /\
    2 * Z.abs ((10 * v + d) * 2 ^ Z.of_nat s - 10 * m) <= 2 ^ Z.of_nat s.
Proof.
  intros Hm. unfold format_1f. cbn [mant scale].
  destruct (Z.ltb_spec m 0) as [Hneg | _]; [lia |].
  rewrite Z.abs_eq by lia.
  assert (Hden : 0 < 2 ^ Z.of_nat s) by (apply Z.pow_pos_nonneg; lia).
  destruct (round_half_even_close (10 * m) (2 ^ Z.of_nat s)
              ltac:(lia) Hden) as [Ht [Hl Hu]].
  set (t := round_half_even (10 * m) (2 ^ Z.of_nat s)) in *.
  exists (t / 10), (t mod 10).
  pose proof (Z.div_mod t 10 ltac:(lia)) as Hdm.
  pose proof (Z.mod_pos_bound t 10 ltac:(lia)) as Hd.
  split; [| split; [apply Z.div_pos; lia | split; [lia |]]].
  - cbn [append]. rewrite !string_app_assoc. reflexivity.
  - replace (10 * (t / 10) + t mod 10) with t by lia. lia.
Qed.

Lemma format_bytes_below_1024 (n : Z) :
  0 <= n < 1024 ->
  format_bytes n = Ok (format_1f (Float n 0) ++ " B")%string.
Proof.
  intros Hn. unfold format_bytes, units. cbn [format_bytes_loop number_lt_1024].
  destruct (Z.ltb_spec n 1024) as [_ | Hge]; [| lia].
  cbn [number_format_1f].
  destruct (of_int_in_range n) as [m [Hm [Hexact _]]].
  { change (2 ^ 1024 - 2 ^ 970) with (1024 * (2 ^ 1014 - 2 ^ 960)). lia. }
  rewrite Hm. cbn [bind]. rewrite Hexact; [reflexivity |].
  change (2 ^ 53) with (1024 * 2 ^ 43). lia.
Qed.

(** From 1024 on, the argument is converted once and the float is divided
    until it drops below 1024 or the units run out. *)
Lemma format_bytes_from_1024 (n m : Z) :
  1024 <= n -> of_int n = Ok (Float m 0) ->
  format_bytes n =
    if m <? 1024 * 2 ^ 10 then Ok (format_1f (Float m 10) ++ " KB")%string
    else if m <? 1024 * 2 ^ 20 then Ok (format_1f (Float m 20) ++ " MB")%string
    else if m <? 1024 * 2 ^ 30 then Ok (format_1f (Float m 30) ++ " GB")%string
    else if m <? 1024 * 2 ^ 40 then Ok (format_1f (Float m 40) ++ " TB")%string
    else Ok (format_1f (Float m 50) ++ " PB")%string.
Proof.
  intros Hn Hm. unfold format_bytes, units.
  cbn [format_bytes_loop number_lt_1024].
  destruct (Z.ltb_spec n 1024) as [Hlt | _]; [lia |].
  cbn [number_div_1024]. rewrite Hm.
  cbn [bind format_bytes_loop number_lt_1024 number_div_1024
       number_format_1f div_1024 lt_1024 mant scale].
  reflexivity.
Qed.

Lemma format_bytes_overflow (n : Z) :
  2 ^ 1024 - 2 ^ 970 <= n -> format_bytes n = Raise OverflowError.
Proof.
  intros Hn. unfold format_bytes, units.
  cbn [format_bytes_loop number_lt_1024].
  destruct (Z.ltb_spec n 1024) as [Hlt | _].
  - exfalso.
    assert (1024 <= 2 ^ 1024 - 2 ^ 970) by (vm_compute; discriminate). lia.
  - cbn [number_div_1024]. rewrite (of_int_overflow n Hn). reflexivity.
Qed.

(** C10, as the code has it.  On the non-negative integers that still
    convert to a float, those below 2^1024 - 2^970, [format_bytes] returns
    a string made of an integer part, a point, one digit, a space and a
    unit.  Below 1024^5 the unit is the smallest of B, KB, MB, GB, TB whose
    scaled value [n / 1024^k] is below 1024, and the number printed is
    that scaled value rounded to one decimal; from 1024^5 on the unit is
    PB.  On the integers from 2^1024 - 2^970 on it raises
    [OverflowError]. *)
Theorem format_bytes_shape (n : Z) :
  0 <= n ->
  (n < 2 ^ 1024 - 2 ^ 970 /\
   exists (v d : Z) (u : string),
     format_bytes n = Ok (str_int v ++ "." ++ str_int d ++ " " ++ u)%string /\
     0 <= v /\ 0 <= d <= 9 /\
     ((exists k : nat,
         nth_error units k = Some u /\
         n < 1024 ^ (Z.of_nat k + 1) /\
         (forall j : nat, (j < k)%nat -> 1024 ^ (Z.of_nat j + 1) <= n) /\
         2 * Z.abs ((10 * v + d) * 1024 ^ Z.of_nat k - 10 * n)
           <= 1024 ^ Z.of_nat k)
      \/ (u = "PB" /\ 1024 ^ 5 <= n)))
  \/ (2 ^ 1024 - 2 ^ 970 <= n /\ format_bytes n = Raise OverflowError).
Proof.
  intros Hn0.
  destruct (Z.lt_ge_cases n (2 ^ 1024 - 2 ^ 970)) as [Hmax | Hmin];
    [left; split; [exact Hmax |]
    | right; split; [exact Hmin | apply format_bytes_overflow; exact Hmin]].
  assert (Hn : 0 <= n < 2 ^ 1024 - 2 ^ 970) by (split; assumption).
  clear Hn0 Hmax.
  destruct (Z.lt_ge_cases n 1024) as [Hlt | Hge].
  - rewrite format_bytes_below_1024 by lia.
    destruct (format_1f_nonneg n 0 " B" ltac:(lia)) as [v [d [Hs [Hv [Hd Hacc]]]]].
    exists v, d, "B". rewrite Hs.
    split; [reflexivity |]. split; [exact Hv |]. split; [exact Hd |].
    unit_case 0%nat.
  - destruct (of_int_in_range n Hn) as [m [Hm [Hexact Hbig]]].
    rewrite (format_bytes_from_1024 n m Hge Hm).
    assert (Hm0 : 0 <= m).
    { destruct (Z.lt_ge_cases n (2 ^ 53)) as [Hs | Hb].
      - rewrite (Hexact Hs). lia.
      - specialize (Hbig Hb). change (2 ^ 52) with 4503599627370496 in Hbig.
        lia. }
    assert (Hsame : m < 2 ^ 52 -> m = n).
    { intros Hlt. apply Hexact.
      destruct (Z.lt_ge_cases n (2 ^ 53)) as [Hs | Hb]; [exact Hs |].
      specialize (Hbig Hb). lia. }
    assert (Hpb : 2 ^ 50 <= m -> 1024 ^ 5 <= n).
    { intros Hle. destruct (Z.lt_ge_cases n (2 ^ 53)) as [Hs | Hb].
      - rewrite (Hexact Hs) in Hle. exact Hle.
      - change (1024 ^ 5) with 1125899906842624.
        change (2 ^ 53) with 9007199254740992 in Hb. lia. }
    change (2 ^ 52) with 4503599627370496 in Hsame.
    change (2 ^ 50) with 1125899906842624 in Hpb.
    change (2 ^ 10) with 1024.
    change (2 ^ 20) with 1048576.
    change (2 ^ 30) with 1073741824.
    change (2 ^ 40) with 1099511627776.
    destruct (Z.ltb_spec m (1024 * 1024)) as [H1 | H1].
    { destruct (format_1f_nonneg m 10 " KB" Hm0) as [v [d [Hs [Hv [Hd Hacc]]]]].
      exists v, d, "KB". rewrite Hs. rewrite (Hsame ltac:(lia)) in *.
      split; [reflexivity |]. split; [exact Hv |]. split; [exact Hd |].
      unit_case 1%nat. }
    destruct (Z.ltb_spec m (1024 * 1048576)) as [H2 | H2].
    { destruct (format_1f_nonneg m 20 " MB" Hm0) as [v [d [Hs [Hv [Hd Hacc]]]]].
      exists v, d, "MB". rewrite Hs. rewrite (Hsame ltac:(lia)) in *.
      split; [reflexivity |]. split; [exact Hv |]. split; [exact Hd |].
      unit_case 2%nat. }
    destruct (Z.ltb_spec m (1024 * 1073741824)) as [H3 | H3].
    { destruct (format_1f_nonneg m 30 " GB" Hm0) as [v [d [Hs [Hv [Hd Hacc]]]]].
      exists v, d, "GB". rewrite Hs. rewrite (Hsame ltac:(lia)) in *.
      split; [reflexivity |]. split; [exact Hv |]. split; [exact Hd |].
      unit_case 3%nat. }
    destruct (Z.ltb_spec m (1024 * 1099511627776)) as [H4 | H4].
    { destruct (format_1f_nonneg m 40 " TB" Hm0) as [v [d [Hs [Hv [Hd Hacc]]]]].
      exists v, d, "TB". rewrite Hs. rewrite (Hsame ltac:(lia)) in *.
      split; [reflexivity |]. split; [exact Hv |]. split; [exact Hd |].
      unit_case 4%nat. }
    destruct (format_1f_nonneg m 50 " PB" Hm0) as [v [d [Hs [Hv [Hd _]]]]].
    exists v, d, "PB". rewrite Hs.
    split; [reflexivity |]. split; [exact Hv |]. split; [exact Hd |].
    right. split; [reflexivity |]. apply Hpb. lia.
Qed.

Lemma format_bytes_shape_witness :
  exists (v d : Z) (u : string),
    format_bytes 1536 = Ok (str_int v ++ "." ++ str_int d ++ " " ++ u)%string /\
    0 <= v /\ 0 <= d <= 9 /\
    ((exists k : nat,
        nth_error units k = Some u /\
        1536 < 1024 ^ (Z.of_nat k + 1) /\
        (forall j : nat, (j < k)%nat -> 1024 ^ (Z.of_nat j + 1) <= 1536) /\
        2 * Z.abs ((10 * v + d) * 1024 ^ Z.of_nat k - 10 * 1536)
          <= 1024 ^ Z.of_nat k)
     \/ (u = "PB" /\ 1024 ^ 5 <= 1536)).
Proof.
  destruct (format_bytes_shape 1536 ltac:(lia)) as [[_ H] | [_ H]].
  - exact H.
  - discriminate H.
Defined.

(** C10, as stated, fails twice.  The unit chosen for 500 is B although
    larger units, TB among them, also scale 500 below 1024; and an integer
    too large for a float makes [format_bytes] raise [OverflowError], the
    first such integer being 2^1024 - 2^970. *)
Lemma format_bytes_unit_and_totality :
  format_bytes 500 = Ok "500.0 B" /\
  nth_error units 4 = Some "TB" /\
  500 < 1024 * 1024 ^ 4 /\
  format_bytes (2 ^ 1024) = Raise OverflowError /\
  format_bytes (2 ^ 1024 - 2 ^ 970) = Raise OverflowError.
Proof.
  split; [reflexivity |]. split; [reflexivity |]. split; [reflexivity |].
  split; vm_compute; reflexivity.
Qed.

(** * Further properties of the script *)

(** ** Thousands separators *)

Lemma uint_digits_no_comma (d : Decimal.uint) :
  Forall (fun c => is_comma c = false)
    (list_ascii_of_string (NilEmpty.string_of_uint d)).
Proof.
  induction d; simpl; constructor; try reflexivity; assumption.
Qed.

Lemma str_int_nonneg_no_comma (z : Z) :
  0 <= z ->
  Forall (fun c => is_comma c = false) (list_ascii_of_string (str_int z)).
Proof.
  intros Hz. unfold str_int. destruct z as [| p | p]; [| | lia].
  - simpl. constructor; [reflexivity | constructor].
  - simpl. pose proof (uint_digits_no_comma (Pos.to_uint p)) as H.
    destruct (Pos.to_uint p); simpl in *;
      try assumption; constructor; [reflexivity | constructor].
Qed.

Lemma str_int_negative (n : Z) :
  n < 0 -> str_int n = ("-" ++ str_int (Z.abs n))%string.
Proof.
  intros Hn. destruct n as [| p | p]; [lia | lia | reflexivity].
Qed.

Lemma filter_cons_eq {A : Type} (f : A -> bool) (x : A) (l : list A) :
  filter f (x :: l) = if f x then x :: filter f l else filter f l.
Proof. reflexivity. Qed.

(** [group3] only adds commas, one after each complete group of three
    digits that is followed by another digit. *)
Lemma group3_spec (n : nat) :
  forall l : list ascii,
    (List.length l <= n)%nat ->
    Forall (fun c => is_comma c = false) l ->
    filter (fun c => negb (is_comma c)) (group3 l) = l /\
    List.length (filter is_comma (group3 l)) = ((List.length l - 1) / 3)%nat.
Proof.
  induction n as [| n IH]; intros l Hlen Hl.
  - destruct l; [split; reflexivity | simpl in Hlen; lia].
  - destruct l as [| a [| b [| c [| d r]]]];
      try (inversion Hl as [| ? ? Ha Hl1]; subst;
           try (inversion Hl1 as [| ? ? Hb Hl2]; subst);
           try (inversion Hl2 as [| ? ? Hc Hl3]; subst);
           simpl; rewrite ?Ha, ?Hb, ?Hc; simpl; split; reflexivity).
    inversion Hl as [| ? ? Ha Hl1]; subst.
    inversion Hl1 as [| ? ? Hb Hl2]; subst.
    inversion Hl2 as [| ? ? Hc Hl3]; subst.
    destruct (IH (d :: r)) as [IHf IHc]; [simpl in *; lia | exact Hl3 |].
    change (group3 (a :: b :: c :: d :: r))
      with (a :: b :: c :: ","%char :: group3 (d :: r)).
    rewrite !filter_cons_eq, Ha, Hb, Hc.
    change (is_comma ","%char) with true. cbn [negb].
    rewrite IHf. split; [reflexivity |].
    cbn [List.length]. rewrite IHc. cbn [List.length].
    replace (S (S (S (S (List.length r)))) - 1)%nat
      with (List.length r + 1 * 3)%nat by lia.
    rewrite Nat.div_add by discriminate.
    replace (S (List.length r) - 1)%nat with (List.length r) by lia. lia.
Qed.

Lemma length_list_ascii_of_string (s : string) :
  List.length (list_ascii_of_string s) = String.length s.
Proof.
  induction s as [| c s IH]; simpl; [reflexivity | rewrite IH; reflexivity].
Qed.

Lemma list_ascii_of_string_app (a b : string) :
  list_ascii_of_string (a ++ b)
  = (list_ascii_of_string a ++ list_ascii_of_string b)%list.
Proof.
  induction a as [| c a IH]; simpl; [reflexivity | rewrite IH; reflexivity].
Qed.

(** Removing the commas from [f"{n:,}"] gives back [str(n)], for every
    integer. *)
Lemma format_comma_remove_commas (n : Z) :
  remove_commas (format_comma n) = str_int n.
Proof.
  unfold remove_commas, format_comma.
  rewrite list_ascii_of_string_app, filter_app.
  rewrite list_ascii_of_string_of_list_ascii, filter_rev.
  pose proof (str_int_nonneg_no_comma (Z.abs n) (Z.abs_nonneg n)) as Hd.
  apply Forall_rev in Hd.
  destruct (group3_spec _ _ (le_n _) Hd) as [Hf _].
  rewrite Hf, rev_involutive.
  destruct (Z.ltb_spec n 0) as [Hneg | Hpos].
  - rewrite (str_int_negative n Hneg). simpl.
    rewrite string_of_list_ascii_of_string. reflexivity.
  - simpl. rewrite string_of_list_ascii_of_string.
    rewrite Z.abs_eq by lia. reflexivity.
Qed.

(** The number of commas in [f"{n:,}"] is the number of complete groups
    of three digits that have a digit before them. *)
Lemma format_comma_count (n : Z) :
  count_commas (format_comma n)
  = ((String.length (str_int (Z.abs n)) - 1) / 3)%nat.
Proof.
  unfold count_commas, format_comma.
  rewrite list_ascii_of_string_app, filter_app, length_app.
  rewrite list_ascii_of_string_of_list_ascii, filter_rev, length_rev.
  pose proof (str_int_nonneg_no_comma (Z.abs n) (Z.abs_nonneg n)) as Hd.
  apply Forall_rev in Hd.
  destruct (group3_spec _ _ (le_n _) Hd) as [_ Hc].
  rewrite Hc, length_rev, length_list_ascii_of_string.
  destruct (n <? 0); reflexivity.
Qed.

(** ** More on [format_bytes] *)

Lemma round_half_even_den_1 (x : Z) : round_half_even x 1 = x.
Proof.
  unfold round_half_even. rewrite Z.div_1_r, Z.mod_1_r. reflexivity.
Qed.

(** The text of a float that is an integer: the integer, then [.0]. *)
Lemma format_1f_integer (n : Z) :
  format_1f (Float n 0) = (str_int n ++ ".0")%string.
Proof.
  unfold format_1f. cbn [mant scale]. change (2 ^ Z.of_nat 0) with 1.
  rewrite round_half_even_den_1.
  rewrite (Z.mul_comm 10), Z.div_mul, Z.mod_mul by discriminate.
  change (str_int 0) with "0"%string.
  destruct (Z.ltb_spec n 0) as [Hneg | Hpos].
  - rewrite (str_int_negative n Hneg), !string_app_assoc. reflexivity.
  - rewrite Z.abs_eq by lia. reflexivity.
Qed.

Lemma of_int_exact (n : Z) :
  Z.abs n < 2 ^ 53 -> of_int n = Ok (Float n 0).
Proof.
  intros Hn. unfold of_int.
  rewrite round53_small by (split; [apply Z.abs_nonneg | exact Hn]).
  destruct (Z.leb_spec (2 ^ 1024) (Z.abs n)) as [Hover | _].
  - exfalso. assert (2 ^ 53 <= 2 ^ 1024) by (vm_compute; discriminate). lia.
  - rewrite Z.mul_comm, Z.abs_sgn. reflexivity.
Qed.

(** Sizes below 1024, negative ones included, are printed exactly and in
    B: [format_bytes n] is [str(n)] followed by [.0 B]. *)
Theorem format_bytes_exact_below_1024 (n : Z) :
  - 2 ^ 53 < n < 1024 ->
  format_bytes n = Ok (str_int n ++ ".0 B")%string.
Proof.
  intros [Hlo Hhi]. unfold format_bytes, units.
  cbn [format_bytes_loop number_lt_1024].
  destruct (Z.ltb_spec n 1024) as [_ | Hge]; [| lia].
  cbn [number_format_1f]. rewrite of_int_exact.
  - cbn [bind]. rewrite format_1f_integer, string_app_assoc. reflexivity.
  - change (2 ^ 53) with 9007199254740992 in *. lia.
Qed.

Lemma format_bytes_exact_below_1024_witness :
  format_bytes (-5) = Ok "-5.0 B"%string.
Proof.
  apply (format_bytes_exact_below_1024 (-5)).
  split; [reflexivity | lia].
Defined.

(** From 1024 up to 1024^5 the unit is one of KB, MB, GB, TB and the
    number printed lies between 1.0 and 1024.0, both included. *)
Theorem format_bytes_scaled_value_range (n : Z) :
  1024 <= n < 1024 ^ 5 ->
  exists (v d : Z) (u : string),
    format_bytes n = Ok (str_int v ++ "." ++ str_int d ++ " " ++ u)%string /\
    In u ["KB"; "MB"; "GB"; "TB"]%string /\
    0 <= d <= 9 /\
    10 <= 10 * v + d <= 10240.
Proof.
  intros [Hlo Hhi]. change (1024 ^ 5) with 1125899906842624 in Hhi.
  assert (Hexact : of_int n = Ok (Float n 0)).
  { apply of_int_exact. change (2 ^ 53) with 9007199254740992. lia. }
  rewrite (format_bytes_from_1024 n n Hlo Hexact).
  change (2 ^ 10) with 1024.
  change (2 ^ 20) with 1048576.
  change (2 ^ 30) with 1073741824.
  change (2 ^ 40) with 1099511627776.
  destruct (Z.ltb_spec n (1024 * 1024)) as [H1 | H1].
  { destruct (format_1f_nonneg n 10 " KB" ltac:(lia))
      as [v [d [Hs [_ [Hd Hacc]]]]].
    exists v, d, "KB"%string. rewrite Hs. close_powers.
    split; [reflexivity |]. split; [simpl; auto |]. lia. }
  destruct (Z.ltb_spec n (1024 * 1048576)) as [H2 | H2].
  { destruct (format_1f_nonneg n 20 " MB" ltac:(lia))
      as [v [d [Hs [_ [Hd Hacc]]]]].
    exists v, d, "MB"%string. rewrite Hs. close_powers.
    split; [reflexivity |]. split; [simpl; auto |]. lia. }
  destruct (Z.ltb_spec n (1024 * 1073741824)) as [H3 | H3].
  { destruct (format_1f_nonneg n 30 " GB" ltac:(lia))
      as [v [d [Hs [_ [Hd Hacc]]]]].
    exists v, d, "GB"%string. rewrite Hs. close_powers.
    split; [reflexivity |]. split; [simpl; auto |]. lia. }
  destruct (Z.ltb_spec n (1024 * 1099511627776)) as [H4 | H4]; [| lia].
  destruct (format_1f_nonneg n 40 " TB" ltac:(lia))
    as [v [d [Hs [_ [Hd Hacc]]]]].
  exists v, d, "TB"%string. rewrite Hs. close_powers.
  split; [reflexivity |]. split; [simpl; auto |]. lia.
Qed.

Lemma format_bytes_scaled_value_range_witness :
  exists (v d : Z) (u : string),
    format_bytes (1024 * 1024 - 1)
      = Ok (str_int v ++ "." ++ str_int d ++ " " ++ u)%string /\
    In u ["KB"; "MB"; "GB"; "TB"]%string /\
    0 <= d <= 9 /\
    10 <= 10 * v + d <= 10240.
Proof.
  apply (format_bytes_scaled_value_range (1024 * 1024 - 1)).
  split; [lia | reflexivity].
Defined.

Lemma of_int_abs_in_range (n : Z) :
  Z.abs n < 2 ^ 1024 - 2 ^ 970 -> exists m, of_int n = Ok (Float m 0).
Proof.
  intros Hn.
  destruct (of_int_in_range (Z.abs n)
              (conj (Z.abs_nonneg n) Hn)) as [m [Hm _]].
  unfold of_int in *. rewrite Z.abs_idemp in Hm.
  destruct (2 ^ 1024 <=? round53 (Z.abs n)); [discriminate Hm |].
  eexists. reflexivity.
Qed.

Lemma format_bytes_ok_of_int (n : Z) (x : float) :
  of_int n = Ok x -> exists s, format_bytes n = Ok s.
Proof.
  intros Hx. unfold format_bytes, units.
  cbn [format_bytes_loop number_lt_1024 number_format_1f number_div_1024].
  rewrite Hx.
  cbn [bind format_bytes_loop number_lt_1024 number_div_1024
       number_format_1f].
  destruct (n <? 1024); [eexists; reflexivity |].
  repeat match goal with
         | |- context [if lt_1024 ?y then _ else _] =>
             destruct (lt_1024 y); [eexists; reflexivity |]
         end.
  eexists. reflexivity.
Qed.

Lemma format_bytes_raise_of_int (n : Z) (e : exn) :
  format_bytes n = Raise e -> of_int n = Raise e.
Proof.
  intros H.
  destruct (of_int n) as [x | e'] eqn:Hof.
  - destruct (format_bytes_ok_of_int n x Hof) as [s Hs]. congruence.
  - unfold format_bytes, units in H.
    cbn [format_bytes_loop number_lt_1024 number_format_1f number_div_1024]
      in H.
    rewrite Hof in H. cbn [bind] in H.
    destruct (n <? 1024); congruence.
Qed.

Lemma of_int_raise (n : Z) (e : exn) :
  of_int n = Raise e -> e = OverflowError.
Proof.
  unfold of_int.
  destruct (2 ^ 1024 <=? round53 (Z.abs n)); intros H;
    [inversion H; reflexivity | discriminate H].
Qed.

Lemma format_bytes_raises_only_overflow_aux (n : Z) (e : exn) :
  format_bytes n = Raise e -> e = OverflowError.
Proof.
  intros H. apply (of_int_raise n). apply format_bytes_raise_of_int. exact H.
Qed.

(** The only exception [format_bytes] raises is [OverflowError], and only
    on an integer of magnitude 2^1024 - 2^970 or more. *)
Theorem format_bytes_raises_only_overflow (n : Z) (e : exn) :
  format_bytes n = Raise e ->
  e = OverflowError /\ 2 ^ 1024 - 2 ^ 970 <= Z.abs n.
Proof.
  intros H. apply format_bytes_raise_of_int in H. split.
  - apply (of_int_raise n e H).
  - destruct (Z.lt_ge_cases (Z.abs n) (2 ^ 1024 - 2 ^ 970)) as [Hlt | Hge];
      [| exact Hge].
    destruct (of_int_abs_in_range n Hlt) as [m Hm]. congruence.
Qed.

Lemma format_bytes_raises_only_overflow_witness :
  OverflowError = OverflowError /\
  2 ^ 1024 - 2 ^ 970 <= Z.abs (- 2 ^ 1024).
Proof.
  apply (format_bytes_raises_only_overflow (- 2 ^ 1024) OverflowError).
  vm_compute. reflexivity.
Defined.

(** ** More on [get_safetensor_info] *)

(** The tensor names of a report are pairwise distinct, whatever keys the
    library enumerates. *)
Theorem report_names_distinct (env : Lib.Env) (info : Info) :
  get_safetensor_info env = Ok info ->
  NoDup (dict_keys (tensors info)).
Proof.
  intros H.
  destruct (get_ok_inv env info H)
    as [size [fw [f [ks [_ [_ [_ [_ [Hloop _]]]]]]]]].
  apply tensor_loop_counts in Hloop; [| constructor].
  exact (proj1 Hloop).
Qed.

Lemma report_names_distinct_witness :
  NoDup (dict_keys (tensors (Sample.report_two_tensors None))).
Proof.
  apply (report_names_distinct (Sample.env_torch None)). reflexivity.
Defined.

(** [total_parameters] is the sum of [numel()] over the keys as
    enumerated, a repeated key counting each time, while [tensor_count]
    never exceeds the number of enumerated keys. *)
Theorem total_counts_every_enumerated_key (env : Lib.Env) (info : Info) :
  get_safetensor_info env = Ok info ->
  exists fw f ks ns,
    In fw frameworks_to_try /\
    Lib.safe_open env fw = Ok f /\
    Lib.keys f = Ok ks /\
    Forall2 (fun k n => exists tensor,
               Lib.get_tensor f k = Ok tensor /\ Lib.numel tensor = Ok n)
      ks ns /\
    total_parameters info = fold_right Z.add 0 ns /\
    0 <= tensor_count info <= Z.of_nat (List.length ks).
Proof.
  intros H.
  destruct (get_ok_inv env info H)
    as [size [fw [f [ks [_ [Hin [Ho [Hks [Hloop [Hcount _]]]]]]]]]].
  apply tensor_loop_counts in Hloop; [| constructor].
  destruct Hloop as [_ [Hlen [ns [Hns Ht]]]].
  exists fw, f, ks, ns. repeat split; try assumption.
  - rewrite Hcount. unfold dict_len. lia.
  - rewrite Hcount. unfold dict_len. simpl in Hlen. lia.
Qed.

Lemma total_counts_every_enumerated_key_witness :
  exists fw f ks ns,
    In fw frameworks_to_try /\
    Lib.safe_open (Sample.env_torch None) fw = Ok f /\
    Lib.keys f = Ok ks /\
    Forall2 (fun k n => exists tensor,
               Lib.get_tensor f k = Ok tensor /\ Lib.numel tensor = Ok n)
      ks ns /\
    total_parameters (Sample.report_two_tensors None)
      = fold_right Z.add 0 ns /\
    0 <= tensor_count (Sample.report_two_tensors None)
      <= Z.of_nat (List.length ks).
Proof.
  apply (total_counts_every_enumerated_key (Sample.env_torch None)).
  reflexivity.
Defined.

(** Every exception that leaves [get_safetensor_info] is the one
    [stat()] raised, passed on unchanged; or the exception of a framework
    attempt that [except Exception] does not catch, passed on unchanged;
    or the [RuntimeError] of the exhausted fallback, in which case each
    of the four attempts raised an [Exception]. *)
Theorem inspection_errors_classified (env : Lib.Env) (e : exn) :
  get_safetensor_info env = Raise e ->
  Lib.st_size env = Raise e \/
  (exists size,
     Lib.st_size env = Ok size /\
     ((is_Exception e = false /\
       exists fw, In fw frameworks_to_try /\ outcome env fw = Raise e) \/
      ((forall fw, In fw frameworks_to_try -> fails env fw) /\
       exists e4,
         outcome env "numpy" = Raise e4 /\
         e = RuntimeError (all_failed_prefix ++ exn_msg e4)))).
Proof.
  intros H. destruct (Lib.st_size env) as [size | e0] eqn:Hsize.
  - right. exists size. split; [reflexivity |].
    rewrite (get_with_size env size Hsize) in H.
    destruct (try_frameworks_raise_inv env _ _ _ _ H) as [Hbase | Hall].
    + left. exact Hbase.
    + right. split; [exact Hall |].
      destruct (all_fail_wrapped env (initial_info (Lib.path env) size) Hall)
        as [e4 [H4 [_ Hraise]]].
      exists e4. split; [exact H4 | congruence].
  - left. unfold get_safetensor_info in H. rewrite Hsize in H.
    simpl in H. inversion H. reflexivity.
Qed.

Lemma inspection_errors_classified_witness :
  Lib.st_size Sample.env_interrupted = Raise Sample.interrupt \/
  (exists size,
     Lib.st_size Sample.env_interrupted = Ok size /\
     ((is_Exception Sample.interrupt = false /\
       exists fw, In fw frameworks_to_try /\
                  outcome Sample.env_interrupted fw = Raise Sample.interrupt) \/
      ((forall fw, In fw frameworks_to_try ->
          fails Sample.env_interrupted fw) /\
       exists e4,
         outcome Sample.env_interrupted "numpy" = Raise e4 /\
         Sample.interrupt = RuntimeError (all_failed_prefix ++ exn_msg e4)))).
Proof.
  apply (inspection_errors_classified Sample.env_interrupted).
  reflexivity.
Defined.

Lemma try_frameworks_ok_metadata (env : Lib.Env) (fws : list string) :
  forall (info : Info) (last : option exn) (r : Info),
    try_frameworks env fws info last = Ok r ->
    exists fw f m prev,
      In fw fws /\
      Lib.safe_open env fw = Ok f /\
      Lib.metadata f = Ok m /\
      metadata r = metadata (assign_metadata prev m).
Proof.
  induction fws as [| fw fws IH]; simpl; intros info last r H.
  - discriminate H.
  - destruct (attempt env fw info) as [info' [u | e]] eqn:Hatt.
    + inversion H; subst info'; clear H.
      destruct (attempt_ok_inv _ _ _ _ _ Hatt)
        as [f [m [ti [tp [Ho [Hm [_ Hi]]]]]]].
      exists fw, f, m, info. subst r.
      repeat split; auto.
    + destruct (is_Exception e); [| discriminate H].
      apply IH in H. destruct H as [fw' [f [m [prev [Hin H]]]]].
      exists fw', f, m, prev. split; [right; exact Hin | exact H].
Qed.

(** A non-empty [__metadata__] comes through unchanged: when the handles
    of the file return the dict [d], the report's metadata is [d], with
    the same items in the same order. *)
Theorem nonempty_metadata_is_reported (env : Lib.Env) (d : dict string)
  (info : Info) :
  d <> [] ->
  (forall fw f m, In fw frameworks_to_try ->
     Lib.safe_open env fw = Ok f -> Lib.metadata f = Ok m -> m = Some d) ->
  get_safetensor_info env = Ok info ->
  metadata info = Some d.
Proof.
  intros Hd Hsame H. unfold get_safetensor_info in H.
  apply bind_ok in H. destruct H as [size [_ H]].
  apply try_frameworks_ok_metadata in H.
  destruct H as [fw [f [m [prev [Hin [Ho [Hm Hr]]]]]]].
  rewrite (Hsame fw f m Hin Ho Hm) in Hr. rewrite Hr.
  destruct d as [| kv d]; [contradiction | reflexivity].
Qed.

Lemma nonempty_metadata_is_reported_witness :
  metadata (Sample.report_two_tensors (Some [("format", "pt")]))
  = Some [("format", "pt")].
Proof.
  apply (nonempty_metadata_is_reported
           (Sample.env_torch (Some [("format", "pt")]))).
  - discriminate.
  - intros fw f m _ Ho Hm. inversion Ho; subst f. inversion Hm. reflexivity.
  - reflexivity.
Defined.

(** ** [format_as_text] *)

Lemma format_bytes_in_range (n : Z) :
  Z.abs n < 2 ^ 1024 - 2 ^ 970 -> exists s, format_bytes n = Ok s.
Proof.
  intros Hn. destruct (of_int_abs_in_range n Hn) as [m Hm].
  apply (format_bytes_ok_of_int n _ Hm).
Qed.

Lemma text_tensor_lines_cons_ok (name : string) (ti : TensorInfo)
  (rest : dict TensorInfo) (l : list string) :
  text_tensor_lines ((name, ti) :: rest) = Ok l ->
  exists size more,
    format_bytes (size_bytes ti) = Ok size /\
    text_tensor_lines rest = Ok more /\
    l = (tensor_head_lines name ti ++ size_line size :: "" :: more)%list.
Proof.
  cbn [text_tensor_lines]. intros H.
  apply bind_ok in H. destruct H as [size [Hsize H]].
  apply bind_ok in H. destruct H as [more [Hmore H]].
  inversion H. exists size, more. repeat split; assumption.
Qed.

Lemma text_tensor_lines_length (ts : dict TensorInfo) :
  forall l, text_tensor_lines ts = Ok l ->
    List.length l = (6 * List.length ts)%nat.
Proof.
  induction ts as [| [name ti] ts IH]; intros l H.
  - inversion H. reflexivity.
  - apply text_tensor_lines_cons_ok in H.
    destruct H as [size [more [_ [Hmore ->]]]].
    cbn [tensor_head_lines app List.length]. rewrite (IH more Hmore). lia.
Qed.

(** The six lines of the [i]-th tensor are the [i]-th block of the
    section. *)
Lemma text_tensor_lines_block (ts : dict TensorInfo) :
  forall (l : list string) (i : nat) (name : string) (ti : TensorInfo),
    text_tensor_lines ts = Ok l ->
    nth_error ts i = Some (name, ti) ->
    exists size,
      format_bytes (size_bytes ti) = Ok size /\
      firstn 6 (skipn (6 * i) l)
      = (tensor_head_lines name ti ++ [size_line size; ""])%list.
Proof.
  induction ts as [| [name0 ti0] ts IH]; intros l i name ti H Hnth.
  - destruct i; discriminate Hnth.
  - apply text_tensor_lines_cons_ok in H.
    destruct H as [size [more [Hsize [Hmore ->]]]].
    destruct i as [| i].
    + inversion Hnth; subst. exists size. split; [exact Hsize | reflexivity].
    + cbn [nth_error] in Hnth.
      destruct (IH more i name ti Hmore Hnth) as [size' [Hsize' Hblock]].
      exists size'. split; [exact Hsize' |].
      replace (6 * S i)%nat with (6 + 6 * i)%nat by lia.
      rewrite <- Hblock. reflexivity.
Qed.

Lemma text_tensor_lines_in_range (ts : dict TensorInfo) :
  Forall (fun kv => Z.abs (size_bytes (snd kv)) < 2 ^ 1024 - 2 ^ 970) ts ->
  exists l, text_tensor_lines ts = Ok l.
Proof.
  induction ts as [| [name ti] ts IH]; intros Hall.
  - exists []. reflexivity.
  - inversion Hall as [| ? ? Hsize Hrest]; subst. simpl in Hsize.
    destruct (format_bytes_in_range _ Hsize) as [s Hs].
    destruct (IH Hrest) as [more Hmore].
    cbn [text_tensor_lines]. rewrite Hs, Hmore. cbn [bind].
    eexists. reflexivity.
Qed.

Lemma text_tensor_lines_raise (ts : dict TensorInfo) (e : exn) :
  text_tensor_lines ts = Raise e -> e = OverflowError.
Proof.
  induction ts as [| [name ti] ts IH]; cbn [text_tensor_lines]; intros H.
  - discriminate H.
  - destruct (format_bytes (size_bytes ti)) as [s | e'] eqn:Hs.
    + cbn [bind] in H.
      destruct (text_tensor_lines ts) as [more | e'']; [discriminate H |].
      cbn [bind] in H. inversion H; subst. apply IH. reflexivity.
    + cbn [bind] in H. inversion H; subst.
      apply (format_bytes_raises_only_overflow_aux _ _ Hs).
Qed.

(** The shape of the text of a complete report. *)
Lemma format_as_text_lines_inv (info : Info) (lines : list string) :
  format_as_text_lines (as_dict info) = Ok lines ->
  exists human section,
    format_bytes (file_size info) = Ok human /\
    ((tensors info = [] /\ section = []) \/
     (tensors info <> [] /\
      exists l, text_tensor_lines (tensors info) = Ok l /\
                section = "=== TENSORS ==="%string :: l)) /\
    lines = (file_lines (file_path info) human (file_size info)
               (tensor_count info) (total_parameters info)
             ++ metadata_section (metadata info) ++ section)%list.
Proof.
  unfold format_as_text_lines, as_dict.
  cbn [getitem bind Keys.file_path Keys.file_size Keys.metadata Keys.tensors
       Keys.tensor_count Keys.total_parameters].
  intros H. apply bind_ok in H. destruct H as [human [Hhuman H]].
  apply bind_ok in H. destruct H as [section [Hsection H]].
  inversion H; subst lines; clear H.
  exists human, section. split; [exact Hhuman |]. split; [| reflexivity].
  destruct (tensors info) as [| kv ts] eqn:Hts.
  - left. inversion Hsection. split; reflexivity.
  - right. split; [discriminate |].
    apply bind_ok in Hsection. destruct Hsection as [l [Hl Hs]].
    inversion Hs. exists l. split; [exact Hl | reflexivity].
Qed.

Lemma metadata_section_length (m : option (dict string)) :
  List.length (metadata_section m)
  = if truthy m then (2 + List.length (metadata_items m))%nat else 3%nat.
Proof.
  unfold metadata_section. destruct (truthy m); [| reflexivity].
  cbn [List.length]. rewrite length_app. unfold metadata_lines.
  rewrite length_map. simpl. lia.
Qed.

(** On a complete report whose sizes fit a float, [format_as_text]
    returns its lines joined by newlines: five lines on the file, the
    metadata section (header, one line per item or the notice, a blank
    line), and, unless there is no tensor, a header and six lines per
    tensor. *)
Theorem format_as_text_complete_report (info : Info) :
  Z.abs (file_size info) < 2 ^ 1024 - 2 ^ 970 ->
  Forall (fun kv => Z.abs (size_bytes (snd kv)) < 2 ^ 1024 - 2 ^ 970)
    (tensors info) ->
  exists lines,
    format_as_text_lines (as_dict info) = Ok lines /\
    format_as_text (as_dict info) = Ok (String.concat newline lines) /\
    List.length lines
    = (5
       + (if truthy (metadata info)
          then 2 + List.length (metadata_items (metadata info)) else 3)
       + match tensors info with
         | [] => 0
         | _ :: _ => 1 + 6 * List.length (tensors info)
         end)%nat.
Proof.
  intros Hsize Hsizes.
  destruct (format_bytes_in_range _ Hsize) as [human Hhuman].
  destruct (text_tensor_lines_in_range _ Hsizes) as [l Hl].
  assert (Hex : exists lines, format_as_text_lines (as_dict info) = Ok lines).
  { unfold format_as_text_lines, as_dict.
    cbn [getitem bind Keys.file_path Keys.file_size Keys.metadata
         Keys.tensors Keys.tensor_count Keys.total_parameters].
    rewrite Hhuman. cbn [bind].
    destruct (tensors info) as [| kv ts]; cbn [bind].
    - eexists. reflexivity.
    - rewrite Hl. cbn [bind]. eexists. reflexivity. }
  destruct Hex as [lines Hlines]. exists lines.
  split; [exact Hlines |]. split.
  - unfold format_as_text. rewrite Hlines. reflexivity.
  - destruct (format_as_text_lines_inv info lines Hlines)
      as [human' [section [_ [Hsec ->]]]].
    rewrite !length_app, metadata_section_length.
    cbn [file_lines List.length].
    destruct Hsec as [[Hts ->] | [Hne [l' [Hl' ->]]]].
    + rewrite Hts. simpl. lia.
    + pose proof (text_tensor_lines_length _ _ Hl') as Hlen.
      destruct (tensors info) as [| kv ts]; [contradiction |].
      cbn [List.length] in *. lia.
Qed.

Lemma format_as_text_complete_report_witness :
  exists lines,
    format_as_text_lines (as_dict (Sample.report_two_tensors None))
      = Ok lines /\
    format_as_text (as_dict (Sample.report_two_tensors None))
      = Ok (String.concat newline lines) /\
    List.length lines = (5 + 3 + (1 + 6 * 2))%nat.
Proof.
  apply (format_as_text_complete_report (Sample.report_two_tensors None)).
  - reflexivity.
  - repeat constructor.
Defined.

(** On a complete report [format_as_text] never raises [KeyError]: the
    only exception it can raise is the [OverflowError] of a size that
    does not fit a float. *)
Theorem format_as_text_raises_only_overflow (info : Info) (e : exn) :
  format_as_text (as_dict info) = Raise e -> e = OverflowError.
Proof.
  unfold format_as_text, format_as_text_lines, as_dict.
  cbn [getitem bind Keys.file_path Keys.file_size Keys.metadata Keys.tensors
       Keys.tensor_count Keys.total_parameters].
  destruct (format_bytes (file_size info)) as [human | e'] eqn:Hhuman;
    cbn [bind].
  - destruct (tensors info) as [| kv ts]; cbn [bind]; [discriminate |].
    destruct (text_tensor_lines (kv :: ts)) as [l | e'] eqn:Hl;
      cbn [bind]; [discriminate |].
    intros H. inversion H; subst.
    apply (text_tensor_lines_raise _ _ Hl).
  - intros H. inversion H; subst.
    apply (format_bytes_raises_only_overflow_aux _ _ Hhuman).
Qed.

Lemma format_as_text_raises_only_overflow_witness :
  OverflowError = OverflowError.
Proof.
  apply (format_as_text_raises_only_overflow
           {| file_path := "big"; file_size := 2 ^ 1024; metadata := None;
              tensors := []; tensor_count := 0; total_parameters := 0 |}).
  vm_compute. reflexivity.
Defined.

(** In the text of a complete report the tensors come in the order of the
    report, six lines each: the block of the [i]-th tensor starts after
    the five file lines, the metadata section, the tensors header and the
    blocks of the tensors before it. *)
Theorem format_as_text_tensor_block (info : Info) (lines : list string)
  (i : nat) (name : string) (ti : TensorInfo) :
  format_as_text_lines (as_dict info) = Ok lines ->
  nth_error (tensors info) i = Some (name, ti) ->
  exists size,
    format_bytes (size_bytes ti) = Ok size /\
    firstn 6
      (skipn (5 + List.length (metadata_section (metadata info)) + 1 + 6 * i)
         lines)
    = [(name ++ ":")%string;
       ("  Shape: [" ++ shape_str (shape ti) ++ "]")%string;
       ("  Dtype: " ++ dtype ti)%string;
       ("  Parameters: " ++ format_comma (parameters ti))%string;
       ("  Size: " ++ size)%string;
       ""%string].
Proof.
  intros Hlines Hnth.
  destruct (format_as_text_lines_inv info lines Hlines)
    as [human [section [_ [Hsec ->]]]].
  destruct Hsec as [[Hts _] | [_ [l [Hl ->]]]].
  - rewrite Hts in Hnth. destruct i; discriminate Hnth.
  - destruct (text_tensor_lines_block _ _ _ _ _ Hl Hnth) as [size [Hs Hb]].
    exists size. split; [exact Hs |].
    replace (5 + List.length (metadata_section (metadata info)) + 1 + 6 * i)%nat
      with (List.length
              (file_lines (file_path info) human (file_size info)
                 (tensor_count info) (total_parameters info))
            + (List.length (metadata_section (metadata info))
               + (1 + 6 * i)))%nat
      by (cbn [file_lines List.length]; lia).
    rewrite skipn_app, skipn_all2 by lia.
    replace (_ + _ - _)%nat
      with (List.length (metadata_section (metadata info)) + (1 + 6 * i))%nat
      by lia.
    cbn [app]. rewrite skipn_app, skipn_all2 by lia.
    replace (_ + _ - _)%nat with (1 + 6 * i)%nat by lia.
    cbn [app]. change (skipn (1 + 6 * i) ("=== TENSORS ==="%string :: l))
      with (skipn (6 * i) l).
    rewrite Hb. reflexivity.
Qed.

Lemma format_as_text_tensor_block_witness :
  exists size,
    format_bytes 2 = Ok size /\
    firstn 6
      (skipn (5 + 3 + 1 + 6 * 1)
         ["SafeTensor File: model.safetensors";
          "File Size: 154.0 B (154 bytes)"; "Tensor Count: 2";
          "Total Parameters: 7"; ""; "=== METADATA ===";
          "No metadata found"; ""; "=== TENSORS ==="; "b:";
          "  Shape: [2×3]"; "  Dtype: torch.float32"; "  Parameters: 6";
          "  Size: 24.0 B"; ""; "a:"; "  Shape: []";
          "  Dtype: torch.float16"; "  Parameters: 1"; "  Size: 2.0 B";
          ""]%string)
    = ["a:"; "  Shape: []"; "  Dtype: torch.float16"; "  Parameters: 1";
       ("  Size: " ++ size)%string; ""]%string.
Proof.
  apply (format_as_text_tensor_block (Sample.report_two_tensors None) _ 1 "a"
           {| shape := []; dtype := "torch.float16";
              parameters := 1; size_bytes := 2 |});
    reflexivity.
Defined.

(** ** [format_as_json] *)

(** What [format_as_json] hands to [json.dumps] for a complete report: the
    report itself plus two strings that agree with its numbers,
    [file_size_human] being [format_bytes] of the size and
    [total_parameters_human] reading as [str(total_parameters)] once its
    commas are removed. *)
Theorem format_as_json_fields (dumps : JsonInfo -> Z -> string) (info : Info)
  (indent : Z) (s : string) :
  format_as_json dumps (as_dict info) indent = Ok s ->
  exists j,
    s = dumps j indent /\
    json_base j = as_dict info /\
    format_bytes (file_size info) = Ok (file_size_human j) /\
    remove_commas (total_parameters_human j)
    = str_int (total_parameters info).
Proof.
  unfold format_as_json, as_dict at 1 2.
  cbn [getitem bind Keys.file_size Keys.total_parameters].
  intros H. apply bind_ok in H. destruct H as [human [Hhuman H]].
  inversion H; subst s; clear H.
  eexists. split; [reflexivity |]. cbn [json_base file_size_human
                                        total_parameters_human].
  split; [reflexivity |]. split; [exact Hhuman |].
  apply format_comma_remove_commas.
Qed.

Lemma format_as_json_fields_witness :
  exists j,
    sample_dumps
      {| json_base := as_dict (Sample.report_two_tensors None);
         file_size_human := "154.0 B";
         total_parameters_human := "7" |} 2
    = sample_dumps j 2 /\
    json_base j = as_dict (Sample.report_two_tensors None) /\
    format_bytes 154 = Ok (file_size_human j) /\
    remove_commas (total_parameters_human j) = str_int 7.
Proof.
  apply (format_as_json_fields sample_dumps
           (Sample.report_two_tensors None) 2).
  reflexivity.
Defined.

(** ** [main] *)


(** The two checks on the file come before everything else: for a path
    that does not exist or is not a file the run prints nothing on
    standard output and ends with status 1, whatever the arguments and
    whatever the library would answer. *)
Theorem file_checks_come_first (dumps dumps' : JsonInfo -> Z -> string)
  (args args' : Cli.Args) (w w' : Cli.World) :
  Cli.file_exists w && Cli.file_is_file w = false ->
  Cli.file_exists w' = Cli.file_exists w ->
  Cli.file_is_file w' = Cli.file_is_file w ->
  Lib.path (Cli.env w') = Lib.path (Cli.env w) ->
  exists o,
    Cli.main dumps args w = Ok o /\
    Cli.main dumps' args' w' = Ok o /\
    Cli.stdout o = [] /\
    Cli.exit_code o = 1.
Proof.
  intros Hbad He Hf Hp. unfold Cli.main. rewrite He, Hf, Hp.
  destruct (Cli.file_exists w); cbn [negb].
  - destruct (Cli.file_is_file w); [discriminate Hbad |].
    cbn [negb]. eexists. repeat split.
  - eexists. repeat split.
Qed.

Lemma file_checks_come_first_witness :
  exists o,
    Cli.main sample_dumps (Cli.Build_Args Cli.text false false)
      (Cli.Build_World true false Sample.env_truncated) = Ok o /\
    Cli.main sample_dumps (Cli.Build_Args Cli.json true true)
      (Cli.Build_World true false Sample.env_truncated) = Ok o /\
    Cli.stdout o = [] /\
    Cli.exit_code o = 1.
Proof.
  apply file_checks_come_first; reflexivity.
Defined.

(** When the inspection raises an [Exception], nothing is printed on
    standard output and the message of the exception is printed after
    [Error: ] on standard error, for every combination of arguments. *)
Theorem inspection_failure_is_reported (dumps : JsonInfo -> Z -> string)
  (args : Cli.Args) (w : Cli.World) (e : exn) :
  Cli.file_exists w = true -> Cli.file_is_file w = true ->
  get_safetensor_info (Cli.env w) = Raise e ->
  is_Exception e = true ->
  Cli.main dumps args w
  = Ok {| Cli.stdout := [];
          Cli.stderr := [("Error: " ++ exn_msg e)%string];
          Cli.exit_code := 1 |}.
Proof.
  intros He Hf H Hexc. unfold Cli.main, Cli.try_block.
  rewrite He, Hf, H. cbn [negb]. rewrite Hexc. reflexivity.
Qed.

Lemma inspection_failure_is_reported_witness :
  Cli.main sample_dumps (Cli.Build_Args Cli.text false true)
    (Cli.Build_World true true Sample.env_truncated)
  = Ok {| Cli.stdout := [];
          Cli.stderr :=
            ["Error: Error reading safetensor file with all frameworks. Last error: Error while deserializing header: InvalidHeaderLength"%string];
          Cli.exit_code := 1 |}.
Proof.
  apply (inspection_failure_is_reported sample_dumps _
           (Cli.Build_World true true Sample.env_truncated)
           (RuntimeError (all_failed_prefix ++ exn_msg Sample.rejected)));
    reflexivity.
Defined.

(** With [--format json], either filter flag makes every run fail, also on
    a file that was inspected successfully: the filtered dict has no
    ['file_size'], [format_as_json] raises [KeyError], and the run ends
    with status 1, nothing on standard output and [Error: 'file_size']. *)
Theorem json_with_filter_flag_fails (dumps : JsonInfo -> Z -> string)
  (args : Cli.Args) (w : Cli.World) (info : Info) :
  Cli.file_exists w = true -> Cli.file_is_file w = true ->
  get_safetensor_info (Cli.env w) = Ok info ->
  Cli.format args = Cli.json ->
  Cli.metadata_only args || Cli.tensors_only args = true ->
  Cli.main dumps args w
  = Ok {| Cli.stdout := [];
       Cli.stderr := ["Error: 'file_size'"%string];
       Cli.exit_code := 1 |}.
Proof.
  intros He Hf H Hfmt Hflag. unfold Cli.main, Cli.try_block.
  rewrite He, Hf, H, Hfmt. cbn [negb].
  unfold Cli.filtered_info, format_as_json.
  destruct (Cli.metadata_only args); [reflexivity |].
  destruct (Cli.tensors_only args); [reflexivity | discriminate Hflag].
Qed.

Lemma json_with_filter_flag_fails_witness :
  Cli.main sample_dumps (Cli.Build_Args Cli.json false true)
    (Cli.Build_World true true (Sample.env_torch None))
  = Ok {| Cli.stdout := [];
       Cli.stderr := ["Error: 'file_size'"%string];
       Cli.exit_code := 1 |}.
Proof.
  apply (json_with_filter_flag_fails sample_dumps _
           (Cli.Build_World true true (Sample.env_torch None))
           (Sample.report_two_tensors None)); reflexivity.
Defined.



(** [--metadata-only] wins over [--tensors-only]: with both flags the run
    is the run with [--metadata-only] alone, in either format. *)
Lemma metadata_only_takes_precedence (dumps : JsonInfo -> Z -> string)
  (fmt : Cli.Format) (both : bool) (w : Cli.World) :
  Cli.main dumps (Cli.Build_Args fmt true both) w
  = Cli.main dumps (Cli.Build_Args fmt true false) w.
Proof.
  unfold Cli.main, Cli.try_block, Cli.filtered_info.
  cbn [Cli.metadata_only Cli.tensors_only Cli.format].
  reflexivity.
Qed.





